(** * pycln: configuration management (`pycln/utils/config.py`)

    A shallow embedding of the `Config` dataclass and of `ParseConfigFile`,
    with the properties of the configuration-resolution pipeline proved on
    it.  The Python run time that the module relies on (attribute lookup,
    `pathlib`, `os.path`, the four file parsers and `regexu`) is kept to
    the observations that `config.py` makes of it. *)

From Stdlib Require Import ZArith Ascii String.
From stdpp Require Import base option list strings gmap.

#[local] Set Warnings "-register-all".

Local Open Scope string_scope.
Local Open Scope list_scope.

(** ** Paths: `pathlib.Path` and `os.path` (POSIX flavour)

    A path is kept as its anchor (absolute or not) and its `/`-separated
    components.  A `str` argument is the same record with arbitrary
    components; [Path_new] is the constructor `Path(...)`, which drops the
    empty and the `.` components and keeps `..`. *)

Module PurePath.

Record Path : Type := mkPath { absolute : bool; parts : list string }.

Definition is_curdir (c : string) : bool :=
  String.eqb c "" || String.eqb c ".".

Definition is_pardir (c : string) : bool := String.eqb c "..".

(** `Path(src)` *)
Definition Path_new (src : Path) : Path :=
  {| absolute := absolute src;
     parts := List.filter (fun c => negb (is_curdir c)) (parts src) |}.

(** `PurePath.name`: the final component, if any. *)
Definition name (p : Path) : string := List.last (parts p) "".

(** `str.rfind(c)`, with [None] for Python's `-1`. *)
Fixpoint rfind (c : ascii) (s : string) : option nat :=
  match s with
  | EmptyString => None
  | String a s' =>
      match rfind c s' with
      | Some i => Some (S i)
      | None => if Ascii.eqb a c then Some 0 else None
      end
  end.

(** `PurePath.suffix`:
    `i = name.rfind('.')`, then `name[i:]` when `0 < i < len(name) - 1`,
    and the empty string otherwise. *)
Definition suffix (p : Path) : string :=
  let nm := name p in
  match rfind "."%char nm with
  | Some i =>
      if Nat.ltb 0 i && Nat.ltb i (String.length nm - 1)
      then String.substring i (String.length nm - i) nm
      else ""
  | None => ""
  end.

(** `posixpath.normpath` on components.  The components kept so far are
    held most recent first. *)
Fixpoint normpath_go (initial_slashes : bool) (new_comps comps : list string)
  : list string :=
  match comps with
  | [] => List.rev new_comps
  | comp :: rest =>
      if is_curdir comp then normpath_go initial_slashes new_comps rest
      else if negb (is_pardir comp)
              || (negb initial_slashes && bool_decide (new_comps = []))
              || match new_comps with
                 | top :: _ => is_pardir top
                 | [] => false
                 end
      then normpath_go initial_slashes (comp :: new_comps) rest
      else normpath_go initial_slashes (List.tl new_comps) rest
  end.

Definition normpath (initial_slashes : bool) (comps : list string)
  : list string :=
  normpath_go initial_slashes [] comps.

(** `os.path.abspath(p)`: `normpath(join(os.getcwd(), p))`, the components
    of an absolute path. *)
Definition abspath (cwd : list string) (p : Path) : list string :=
  normpath true (if absolute p then parts p else cwd ++ parts p).

(** `os.path.commonprefix` of two component lists. *)
Fixpoint commonprefix (l1 l2 : list string) : list string :=
  match l1, l2 with
  | a :: l1', b :: l2' =>
      if String.eqb a b then a :: commonprefix l1' l2' else []
  | _, _ => []
  end.

(** `os.path.relpath(path, start)`, as the components of the result
    (`curdir` when the list is empty). *)
Definition relpath (cwd : list string) (path start : Path) : list string :=
  let start_list := abspath cwd start in
  let path_list := abspath cwd path in
  let i := length (commonprefix start_list path_list) in
  let rel_list :=
    List.repeat ".." (length start_list - i) ++ List.skipn i path_list in
  match rel_list with
  | [] => ["."]
  | _ => rel_list
  end.

(** `Path(os.path.join(a, b))` for a relative `b`: the components of `b`
    follow those of `a`. *)
Definition join (a : Path) (b : list string) : Path :=
  Path_new {| absolute := absolute a; parts := parts a ++ b |}.

(** A component that names an entry: neither empty, `.` nor `..`. *)
Definition plain (c : string) : Prop :=
  is_curdir c = false /\ is_pardir c = false.

End PurePath.
Export PurePath.

(** `str.strip('.')` *)
Fixpoint lstrip_dot (s : string) : string :=
  match s with
  | String "." s' => lstrip_dot s'
  | _ => s
  end.

Definition strip_dot (s : string) : string :=
  let r := String.rev (lstrip_dot s) in
  String.rev (lstrip_dot r).

(** `str.split('.')` *)
Fixpoint split_dot_go (cur : string) (s : string) : list string :=
  match s with
  | EmptyString => [String.rev cur]
  | String "." s' => String.rev cur :: split_dot_go "" s'
  | String a s' => split_dot_go (String a cur) s'
  end.

Definition split_dot (s : string) : list string := split_dot_go "" s.

(** `dict.get(key, None)` on an insertion-ordered dictionary. *)
Fixpoint dict_lookup {A : Type} (k : string) (d : list (string * A))
  : option A :=
  match d with
  | [] => None
  | (k', v) :: d' => if String.eqb k' k then Some v else dict_lookup k d'
  end.

(** ** Constants *)

Definition CONFIG_SECTIONS : list (string * string) :=
  [ (".cfg", "pycln");
    (".toml", "tool.pycln");
    (".json", "pycln");
    (".yaml", "pycln");
    (".yml", "pycln") ].

(** ** Python values

    [pyobj] is what the file parsers return: `None`, booleans, integers,
    strings, lists and string-keyed dictionaries in insertion order;
    [OOther] stands for the remaining scalars (floats, dates, bytes), of
    which `config.py` observes the truth value only.  A [value] is what an
    attribute of a `Config` may hold: a decoded object, a `Path`, or a
    compiled pattern. *)

Inductive pyobj : Type :=
| ONone
| OBool (b : bool)
| OInt (z : Z)
| OStr (s : string)
| OOther (truth : bool)
| OList (l : list pyobj)
| ODict (d : list (string * pyobj)).

Inductive value : Type :=
| VObj (o : pyobj)
| VPath (p : Path)
| VPattern (pattern : string).

Abbreviation None_ := (VObj ONone).
Abbreviation False_ := (VObj (OBool false)).

(** `bool(o)` *)
Definition obj_truth (o : pyobj) : bool :=
  match o with
  | ONone => false
  | OBool b => b
  | OInt z => negb (Z.eqb z 0)
  | OStr s => negb (String.eqb s "")
  | OOther t => t
  | OList l => match l with [] => false | _ => true end
  | ODict d => match d with [] => false | _ => true end
  end.

Definition truth (v : value) : bool :=
  match v with
  | VObj o => obj_truth o
  | VPath _ | VPattern _ => true
  end.

(** `v is not None` *)
Definition is_not_None (v : value) : bool :=
  match v with
  | VObj ONone => false
  | _ => true
  end.

(** ** Effects

    A call either returns, leaves through `typer.Exit(code)`, or raises an
    exception that nothing in the module catches.  It may update the one
    `Config` object under construction (its instance dictionary) and it
    emits events: the lines written with `typer.secho(..., err=True)`, kept
    with the values they interpolate, and the reads of a config file. *)

Inductive exn : Type :=
| AttributeError | TypeError | ValueError | RecursionError | DecodeError.

Inductive outcome (A : Type) : Type :=
| Ok (a : A)
| Exit (code : Z)
| Raise (e : exn).
Arguments Ok {A} a.
Arguments Exit {A} code.
Arguments Raise {A} e.

Inductive parser : Type := ConfigParser | Toml | Json | Yaml.

Inductive diagnostic : Type :=
| NoPathProvided
    (* "No Path provided. Nothing to do" *)
| NotDirOrFile (path : value)
    (* f"'{self.path}' is not a directory or a file. Maybe it does not exist" *)
| ConfigFileMissing (path : Path)
    (* f"Config file {str(self._path)!r} does not exist" *)
| ConfigFileUnsupported (path : Path)
    (* f"Config file {str(self._path)!r} is not supported" *)
| SupportedTypes (keys : list string)
    (* f"Supported types: {CONFIG_SECTIONS.keys()}." *)
| InvalidRegex (type_ : string) (str_regex : string).

Inductive event : Type :=
| Echo (d : diagnostic)
| Load (by_ : parser) (p : Path).

Record run (A : Type) : Type :=
  Run { outcome_of : outcome A;
        object : gmap string value;
        emitted : list event }.
Arguments Run {A} _ _ _.
Arguments outcome_of {A} _.
Arguments object {A} _.
Arguments emitted {A} _.

Definition M (A : Type) : Type := gmap string value -> run A.

Definition ret {A : Type} (a : A) : M A := fun self => Run (Ok a) self [].

Definition bind {A B : Type} (m : M A) (k : A -> M B) : M B :=
  fun self =>
    let r := m self in
    match outcome_of r with
    | Ok a =>
        let r' := k a (object r) in
        Run (outcome_of r') (object r') (emitted r ++ emitted r')
    | Exit c => Run (Exit c) (object r) (emitted r)
    | Raise e => Run (Raise e) (object r) (emitted r)
    end.

Definition raise {A : Type} (e : exn) : M A :=
  fun self => Run (Raise e) self [].

(** `raise typer.Exit(code)` *)
Definition typer_Exit {A : Type} (code : Z) : M A :=
  fun self => Run (Exit code) self [].

(** `typer.secho(message, err=True)` *)
Definition secho (d : diagnostic) : M unit :=
  fun self => Run (Ok tt) self [Echo d].

Declare Scope py_scope.
Delimit Scope py_scope with py.
Notation "x <- m ;; k" := (bind m (fun x => k))
  (at level 100, m at next level, right associativity) : py_scope.
Notation "m ;;; k" := (bind m (fun _ => k))
  (at level 100, right associativity) : py_scope.
Local Open Scope py_scope.

(** ** The Python run time, as far as `config.py` observes it *)

Record runtime : Type :=
  { (** `hasattr(Config, k)` for the names that the class body does not
        define: those inherited from `object` and `type` and those added by
        `@dataclass`. *)
    builtin_attr : string -> bool;
    (** the builtin `str` *)
    py_str : value -> string;
    (** whether `re.compile` accepts the string *)
    re_valid : string -> bool;
    (** the constants of `regexu` *)
    INCLUDE : string;
    EXCLUDE : string;
    INCLUDE_REGEX : value;
    EXCLUDE_REGEX : value }.

(** The file system and what each parser makes of a file ([None]: the
    parser rejects the content). *)
Record world : Type :=
  { cwd : list string;
    is_file : Path -> bool;
    is_dir : Path -> bool;
    (** `ConfigParser(allow_no_value=True).read(p)`, then `_sections` *)
    cfg_read : Path -> option (list (string * pyobj));
    (** `toml.load(p)` *)
    toml_load : Path -> option (list (string * pyobj));
    (** `json.load(tokenize.open(p))` *)
    json_load : Path -> option pyobj;
    (** `yaml.load(tokenize.open(p), Loader=yaml.SafeLoader)` *)
    yaml_load : Path -> option pyobj }.

(** `o.get(key, default)`: only a dictionary has `get`; a key `None` is in
    no string-keyed dictionary. *)
Definition py_get (o : pyobj) (key : option string) (default_ : pyobj)
  : M pyobj :=
  match o with
  | ODict d =>
      match key with
      | Some k => ret (default default_ (dict_lookup k d))
      | None => ret default_
      end
  | _ => raise AttributeError
  end.

(** `o.items()` *)
Definition py_items (o : pyobj) : M (list (string * pyobj)) :=
  match o with
  | ODict d => ret d
  | _ => raise AttributeError
  end.

(** `for k, v in items: body` *)
Fixpoint for_items (body : string -> pyobj -> M unit)
  (items : list (string * pyobj)) : M unit :=
  match items with
  | [] => ret tt
  | (k, v) :: rest => body k v ;;; for_items body rest
  end.

(** Reading a config file with one of the parsers. *)
Definition load {A : Type} (by_ : parser) (parse : Path -> option A)
  (p : Path) : M A :=
  fun self =>
    match parse p with
    | Some doc => Run (Ok doc) self [Load by_ p]
    | None => Run (Raise DecodeError) self [Load by_ p]
    end.

Section Config.

Variable rt : runtime.
Variable w : world.

(** *** `class Config` *)

(** The fields declared with a default value, which the class body binds
    as class attributes, in the order of the source. *)
Definition class_defaults : list (string * value) :=
  [ ("config", None_);
    ("include", INCLUDE_REGEX rt);
    ("exclude", EXCLUDE_REGEX rt);
    ("all_", False_);
    ("check", False_);
    ("diff", False_);
    ("verbose", False_);
    ("quiet", False_);
    ("silence", False_);
    ("expand_stars", False_);
    ("no_gitignore", False_) ].

(** The schema of the dataclass: `path`, which has no default, then the
    fields above. *)
Definition fields : list string := "path" :: List.map fst class_defaults.

(** The methods defined in the class body. *)
Definition class_methods : list string :=
  [ "__post_init__"; "_check_path"; "_check_regex"; "get_relpath" ].

(** `hasattr(Config, k)` *)
Definition hasattr_Config (k : string) : bool :=
  bool_decide (k ∈ List.map fst class_defaults)
  || bool_decide (k ∈ class_methods)
  || builtin_attr rt k.

(** `self.<name>` for a data attribute: the instance dictionary, then the
    class. *)
Definition getattr (name : string) : M value :=
  fun self =>
    match self !! name with
    | Some v => Run (Ok v) self []
    | None =>
        match dict_lookup name class_defaults with
        | Some v => Run (Ok v) self []
        | None => Run (Raise AttributeError) self []
        end
    end.

(** `setattr(self, name, v)`.  Three names belong to data descriptors of
    the run time: `__class__` accepts a class only, `__weakref__` is not
    writable, and `__dict__` accepts a dictionary, which then replaces the
    instance dictionary.  Every other name is bound in the instance
    dictionary. *)
Definition setattr (name : string) (v : value) : M unit :=
  fun self =>
    if String.eqb name "__class__" then Run (Raise TypeError) self []
    else if String.eqb name "__weakref__" then
      Run (Raise AttributeError) self []
    else if String.eqb name "__dict__" then
      match v with
      | VObj (ODict d) =>
          let items := List.map (fun kv => (fst kv, VObj (snd kv))) d in
          Run (Ok tt) (list_to_map items) []
      | _ => Run (Raise TypeError) self []
      end
    else Run (Ok tt) (<[name := v]> self) [].

(** `self.<name>()`: an attribute of that name in the instance dictionary
    shadows the method, and no [value] is callable. *)
Definition call_method {A : Type} (name : string) (body : M A) : M A :=
  fun self =>
    match self !! name with
    | Some _ => Run (Raise TypeError) self []
    | None => body self
    end.

(** `v.is_dir()`, `v.is_file()`: methods of `Path` only. *)
Definition path_is_dir (v : value) : M bool :=
  match v with
  | VPath p => ret (is_dir w p)
  | _ => raise AttributeError
  end.

Definition path_is_file (v : value) : M bool :=
  match v with
  | VPath p => ret (is_file w p)
  | _ => raise AttributeError
  end.

(** Modelled from the spec: `regexu.safe_compile(str_regex, type_)`, which
    is not in this file: it compiles the pattern and returns it, or reports
    the invalid pattern under its category label and terminates with a
    non-zero status. *)
Definition safe_compile (str_regex : string) (type_ : string) : M value :=
  if re_valid rt str_regex then ret (VPattern str_regex)
  else secho (InvalidRegex type_ str_regex) ;;; typer_Exit 1.

Definition _check_path : M unit :=
  path <- getattr "path" ;;
  if negb (truth path) then
    secho NoPathProvided ;;; typer_Exit 1
  else
    d <- path_is_dir path ;;
    ok <- (if d then ret true else path_is_file path) ;;
    if negb ok then
      secho (NotDirOrFile path) ;;; typer_Exit 1
    else ret tt.

Definition _check_regex : M unit :=
  include <- getattr "include" ;;
  include <- safe_compile (py_str rt include) (INCLUDE rt) ;;
  setattr "include" include ;;;
  exclude <- getattr "exclude" ;;
  exclude <- safe_compile (py_str rt exclude) (EXCLUDE rt) ;;
  setattr "exclude" exclude.

(** `Config.get_relpath(self, src)`, with `self.path` a `Path`. *)
Definition get_relpath (self_path : Path) (src : Path) : Path :=
  let relpath_ := Path_new src in
  if negb (is_file w relpath_) then
    let os_relpath := relpath (cwd w) relpath_ self_path in
    join self_path os_relpath
  else relpath_.

(** *** `class ParseConfigFile` *)

Record ParseConfigFile : Type :=
  { _path : Path; _section : option string }.

(** The body of the loop of `_config_loader`, for one item `k, v`. *)
Definition _config_loader_item (k : string) (v : pyobj) : M unit :=
  let k := if String.eqb k "all" then "all_" else k in
  if hasattr_Config k then setattr k (VObj v) else ret tt.

Definition _config_loader (config_dict : pyobj) : M unit :=
  if obj_truth config_dict then
    items <- py_items config_dict ;;
    for_items _config_loader_item items
  else ret tt.

Definition _parse_cfg (self : ParseConfigFile) : M unit :=
  sections <- load ConfigParser (cfg_read w) (_path self) ;;
  configs <- py_get (ODict sections) (_section self) (ODict []) ;;
  _config_loader configs.

Definition _parse_toml (self : ParseConfigFile) : M unit :=
  parsed_toml <- load Toml (toml_load w) (_path self) ;;
  match _section self with
  | None => raise AttributeError
  | Some section =>
      match split_dot section with
      | [tool; pycln] =>
          table <- py_get (ODict parsed_toml) (Some tool) (ODict []) ;;
          configs <- py_get table (Some pycln) (ODict []) ;;
          _config_loader configs
      | _ => raise ValueError
      end
  end.

Definition _parse_json (self : ParseConfigFile) : M unit :=
  parsed_json <- load Json (json_load w) (_path self) ;;
  configs <- py_get parsed_json (_section self) (ODict []) ;;
  _config_loader configs.

Definition _parse_yaml (self : ParseConfigFile) : M unit :=
  parsed_yaml <- load Yaml (yaml_load w) (_path self) ;;
  configs <- py_get parsed_yaml (_section self) (ODict []) ;;
  _config_loader configs.

Definition _parse_yml (self : ParseConfigFile) : M unit := _parse_yaml self.

(** `getattr(self, name)()` for the methods of `ParseConfigFile`. *)
Definition parse_method (name : string) (self : ParseConfigFile) : M unit :=
  if String.eqb name "_parse_cfg" then _parse_cfg self
  else if String.eqb name "_parse_toml" then _parse_toml self
  else if String.eqb name "_parse_json" then _parse_json self
  else if String.eqb name "_parse_yaml" then _parse_yaml self
  else if String.eqb name "_parse_yml" then _parse_yml self
  else raise AttributeError.

Definition parse (self : ParseConfigFile) : M unit :=
  if negb (is_file w (_path self)) then
    secho (ConfigFileMissing (_path self)) ;;; typer_Exit 1
  else
    match _section self with
    | None =>
        secho (ConfigFileUnsupported (_path self)) ;;;
        secho (SupportedTypes (List.map fst CONFIG_SECTIONS)) ;;;
        typer_Exit 1
    | Some _ =>
        parse_method ("_parse_" ++ strip_dot (suffix (_path self))) self
    end.

(** `ParseConfigFile(file_path, config)`; [post_init] is
    `Config.__post_init__`, which the constructor calls back on the
    `Config` it was given.  `file_path.suffix` exists on a `Path` only. *)
Definition ParseConfigFile_init (post_init : M unit) (file_path : value)
  : M unit :=
  match file_path with
  | VPath p =>
      let self :=
        {| _path := p;
           _section := dict_lookup (suffix p) CONFIG_SECTIONS |} in
      parse self ;;;
      call_method "__post_init__" post_init
  | _ => raise AttributeError
  end.

(** `Config.__post_init__`; [depth] bounds the nesting of the calls, as
    the interpreter's recursion limit does. *)
Fixpoint __post_init__ (depth : nat) : M unit :=
  match depth with
  | O => raise RecursionError
  | S depth' =>
      config <- getattr "config" ;;
      if is_not_None config then
        let file_path := config in
        setattr "config" None_ ;;;
        ParseConfigFile_init (__post_init__ depth') file_path
      else
        call_method "_check_path" _check_path ;;;
        call_method "_check_regex" _check_regex
  end.

(** The arguments of `Config(...)`. *)
Record Config_args : Type :=
  { arg_path : value;
    arg_config : value;
    arg_include : value;
    arg_exclude : value;
    arg_all_ : value;
    arg_check : value;
    arg_diff : value;
    arg_verbose : value;
    arg_quiet : value;
    arg_silence : value;
    arg_expand_stars : value;
    arg_no_gitignore : value }.

(** `Config(path, config=config)`, the other fields at their defaults. *)
Definition defaults (path config : value) : Config_args :=
  {| arg_path := path;
     arg_config := config;
     arg_include := INCLUDE_REGEX rt;
     arg_exclude := EXCLUDE_REGEX rt;
     arg_all_ := False_;
     arg_check := False_;
     arg_diff := False_;
     arg_verbose := False_;
     arg_quiet := False_;
     arg_silence := False_;
     arg_expand_stars := False_;
     arg_no_gitignore := False_ |}.

(** The `__init__` that `@dataclass` generates: one assignment per field
    in the order of declaration, then `__post_init__`. *)
Definition Config_init (depth : nat) (a : Config_args) : M unit :=
  setattr "path" (arg_path a) ;;;
  setattr "config" (arg_config a) ;;;
  setattr "include" (arg_include a) ;;;
  setattr "exclude" (arg_exclude a) ;;;
  setattr "all_" (arg_all_ a) ;;;
  setattr "check" (arg_check a) ;;;
  setattr "diff" (arg_diff a) ;;;
  setattr "verbose" (arg_verbose a) ;;;
  setattr "quiet" (arg_quiet a) ;;;
  setattr "silence" (arg_silence a) ;;;
  setattr "expand_stars" (arg_expand_stars a) ;;;
  setattr "no_gitignore" (arg_no_gitignore a) ;;;
  __post_init__ depth.

(** `Config(...)`: a fresh object, then `__init__`. *)
Definition Config_new (depth : nat) (a : Config_args) : run unit :=
  Config_init depth a ∅.

(** *** Vocabulary of the statements *)

(** The instance dictionary when `__init__` reaches `__post_init__`. *)
Definition init_object (a : Config_args) : gmap string value :=
  <["no_gitignore" := arg_no_gitignore a]>
    (<["expand_stars" := arg_expand_stars a]>
       (<["silence" := arg_silence a]>
          (<["quiet" := arg_quiet a]>
             (<["verbose" := arg_verbose a]>
                (<["diff" := arg_diff a]>
                   (<["check" := arg_check a]>
                      (<["all_" := arg_all_ a]>
                         (<["exclude" := arg_exclude a]>
                            (<["include" := arg_include a]>
                               (<["config" := arg_config a]>
                                  (<["path" := arg_path a]> ∅))))))))))).

(** `hasattr(Config, k)` of the key as the loop renames it. *)
Definition names_class_attr (kv : string * pyobj) : bool :=
  hasattr_Config (if String.eqb (fst kv) "all" then "all_" else fst kv).

(** Whether the renamed key is a field of the schema. *)
Definition names_field (kv : string * pyobj) : bool :=
  bool_decide
    ((if String.eqb (fst kv) "all" then "all_" else fst kv) ∈ fields).

(** The Settings Object that a run leaves, with how the run ended. *)
Definition settings {A : Type} (r : run A)
  : outcome A * gmap string value :=
  (outcome_of r, object r).

(** The run `r`, with the events `out` emitted before it. *)
Definition after_events {A : Type} (out : list event) (r : run A) : run A :=
  Run (outcome_of r) (object r) (out ++ emitted r).

(** The number of reads of a config file among the events of a run. *)
Definition is_load (e : event) : bool :=
  match e with
  | Load _ _ => true
  | Echo _ => false
  end.

Definition loads (out : list event) : nat :=
  length (List.filter is_load out).

Definition is_RecursionError {A : Type} (o : outcome A) : bool :=
  match o with
  | Raise RecursionError => true
  | _ => false
  end.

(** The content of the tool's section in the file `p`, read off the table
    of supported formats: the section `pycln` of a `.cfg` file, the table
    `pycln` inside the table `tool` of a `.toml` file, the top-level key
    `pycln` of a `.json`, `.yaml` or `.yml` document. *)
Definition section_content (p : Path) : option pyobj :=
  if String.eqb (suffix p) ".cfg" then
    match cfg_read w p with
    | Some sections => dict_lookup "pycln" sections
    | None => None
    end
  else if String.eqb (suffix p) ".toml" then
    match toml_load w p with
    | Some doc =>
        match dict_lookup "tool" doc with
        | Some (ODict table) => dict_lookup "pycln" table
        | _ => None
        end
    | None => None
    end
  else if String.eqb (suffix p) ".json" then
    match json_load w p with
    | Some (ODict doc) => dict_lookup "pycln" doc
    | _ => None
    end
  else if String.eqb (suffix p) ".yaml" || String.eqb (suffix p) ".yml" then
    match yaml_load w p with
    | Some (ODict doc) => dict_lookup "pycln" doc
    | _ => None
    end
  else None.

(** What the validation phase establishes: `path` is a `Path` to an
    existing directory or file, and `include` and `exclude` are patterns
    that compiled. *)
Definition validated (self : gmap string value) : Prop :=
  exists p include exclude,
    self !! "path" = Some (VPath p)
    /\ is_dir w p || is_file w p = true
    /\ self !! "include" = Some (VPattern include)
    /\ re_valid rt include = true
    /\ self !! "exclude" = Some (VPattern exclude)
    /\ re_valid rt exclude = true.

(** `config`, when bound in the instance dictionary, holds an object that
    a parser produced (`None` included), never a `Path`. *)
Definition config_decoded (self : gmap string value) : Prop :=
  forall v, self !! "config" = Some v -> exists o, v = VObj o.

(** From an object with `config` decoded, the call `m` keeps it so, reads
    at most `n` files and does not exhaust the depth. *)
Definition bounded {A : Type} (n : nat) (m : M A) : Prop :=
  forall self, config_decoded self ->
    config_decoded (object (m self))
    /\ loads (emitted (m self)) <= n
    /\ is_RecursionError (outcome_of (m self)) = false.

(** The file `p` parses to a mapping in which the tool has no section:
    no section `pycln` in a `.cfg` file, no table `tool` or no table
    `pycln` inside it in a `.toml` file, no key `pycln` in the top-level
    mapping of a `.json`, `.yaml` or `.yml` document. *)
Definition section_absent (p : Path) : bool :=
  if String.eqb (suffix p) ".cfg" then
    match cfg_read w p with
    | Some sections => bool_decide (dict_lookup "pycln" sections = None)
    | None => false
    end
  else if String.eqb (suffix p) ".toml" then
    match toml_load w p with
    | Some doc =>
        match dict_lookup "tool" doc with
        | None => true
        | Some (ODict table) => bool_decide (dict_lookup "pycln" table = None)
        | Some _ => false
        end
    | None => false
    end
  else if String.eqb (suffix p) ".json" then
    match json_load w p with
    | Some (ODict doc) => bool_decide (dict_lookup "pycln" doc = None)
    | _ => false
    end
  else if String.eqb (suffix p) ".yaml" || String.eqb (suffix p) ".yml" then
    match yaml_load w p with
    | Some (ODict doc) => bool_decide (dict_lookup "pycln" doc = None)
    | _ => false
    end
  else false.

(** *** Vocabulary of the further statements *)

(** The call `m` keeps the property `I` of the object. *)
Definition preserves {A : Type} (I : gmap string value -> Prop) (m : M A)
  : Prop :=
  forall self, I self -> I (object (m self)).

Definition is_Ok {A : Type} (o : outcome A) : bool :=
  match o with
  | Ok _ => true
  | _ => false
  end.

Definition is_Raise {A : Type} (o : outcome A) : bool :=
  match o with
  | Raise _ => true
  | _ => false
  end.

(** The fields annotated `bool`. *)
Definition flags : list string :=
  [ "all_"; "check"; "diff"; "verbose"; "quiet"; "silence";
    "expand_stars"; "no_gitignore" ].

(** The parser that the suffix of `p` selects rejects the file. *)
Definition parser_rejects (p : Path) : bool :=
  if String.eqb (suffix p) ".cfg" then bool_decide (cfg_read w p = None)
  else if String.eqb (suffix p) ".toml" then bool_decide (toml_load w p = None)
  else if String.eqb (suffix p) ".json" then bool_decide (json_load w p = None)
  else if String.eqb (suffix p) ".yaml" || String.eqb (suffix p) ".yml"
  then bool_decide (yaml_load w p = None)
  else false.

(** `path`, when bound, holds a decoded object, so not a `Path`. *)
Definition path_not_Path (self : gmap string value) : Prop :=
  forall v, self !! "path" = Some v -> exists o, v = VObj o.

(** `path` is still the value `path`, or no `Path` any more. *)
Definition path_kept (path : value) (self : gmap string value) : Prop :=
  self !! "path" = Some path \/ path_not_Path self.

(** The method `name` is shadowed on the object, or `path` is no `Path`. *)
Definition method_shadowed (name : string) (self : gmap string value)
  : Prop :=
  is_Some (self !! name) \/ path_not_Path self.

End Config.

(** ** A sample run time and a sample file system

    Used by the examples below: a repository `/repo` with a package
    directory, one config file per supported format, all with the same
    section, and a few files without a usable section. *)

Module Sample.

#[global] Instance Path_eq_dec : EqDecision Path.
Proof. solve_decision. Defined.

(** What `hasattr(Config, k)` finds beyond the class body, as of CPython
    3.8: the attributes of `object`, those that the class statement and
    `@dataclass` add, and those of `type` that are reached through the
    class. *)
Definition object_attrs : list string :=
  [ "__class__"; "__delattr__"; "__dir__"; "__doc__"; "__eq__";
    "__format__"; "__ge__"; "__getattribute__"; "__gt__"; "__hash__";
    "__init__"; "__init_subclass__"; "__le__"; "__lt__"; "__ne__";
    "__new__"; "__reduce__"; "__reduce_ex__"; "__repr__"; "__setattr__";
    "__sizeof__"; "__str__"; "__subclasshook__";
    "__dict__"; "__module__"; "__weakref__"; "__annotations__";
    "__dataclass_fields__"; "__dataclass_params__";
    "__name__"; "__qualname__"; "__mro__"; "__bases__"; "__base__";
    "__basicsize__"; "__itemsize__"; "__flags__"; "__dictoffset__";
    "__weakrefoffset__"; "__call__"; "__instancecheck__";
    "__subclasscheck__"; "__subclasses__"; "__prepare__";
    "__text_signature__"; "mro" ].

Definition str (v : value) : string :=
  match v with
  | VObj (OStr s) => s
  | VObj ONone => "None"
  | VObj (OBool true) => "True"
  | VObj (OBool false) => "False"
  | VPattern s => "re.compile('" ++ s ++ "')"
  | _ => "<object>"
  end.

Definition rt : runtime :=
  {| builtin_attr := fun k => bool_decide (k ∈ object_attrs);
     py_str := str;
     re_valid := fun s => negb (String.eqb s "(");
     INCLUDE := "include";
     EXCLUDE := "exclude";
     INCLUDE_REGEX := VObj (OStr ".*\.py$");
     EXCLUDE_REGEX := VObj (OStr "(\.git|build|dist)/") |}.

Definition repo : Path := mkPath true ["repo"].
Definition at_repo (file : string) : Path := mkPath true ["repo"; file].

(** `all = true` and `verbose = true`, as `toml.load`, `json.load` and
    `yaml.load` decode them. *)
Definition section : list (string * pyobj) :=
  [ ("all", OBool true); ("verbose", OBool true) ].

(** The same two options out of a `.cfg` file: `ConfigParser` keeps every
    value as the string of the file.  A YAML file that quotes the values
    decodes to the same. *)
Definition cfg_section : list (string * pyobj) :=
  [ ("all", OStr "true"); ("verbose", OStr "true") ].

Definition files : list Path :=
  [ at_repo "setup.cfg"; at_repo "pyproject.toml"; at_repo "pycln.json";
    at_repo "pycln.yaml"; at_repo "pycln.yml"; at_repo "tox.ini";
    at_repo "empty.yaml"; at_repo "list.json"; at_repo "other.toml";
    at_repo "methods.json"; at_repo "again.json"; at_repo "quoted.yaml";
    mkPath true ["repo"; "pkg"; "mod.py"] ].

Definition w : world :=
  {| cwd := ["repo"];
     is_file := fun p => bool_decide (p ∈ files);
     is_dir := fun p => bool_decide (p ∈ [repo; mkPath true ["repo"; "pkg"]]);
     cfg_read := fun p =>
       if bool_decide (p = at_repo "setup.cfg")
       then Some [("metadata", ODict []); ("pycln", ODict cfg_section)]
       else Some [];
     toml_load := fun p =>
       if bool_decide (p = at_repo "pyproject.toml")
       then Some [("tool", ODict [("pycln", ODict section)])]
       else if bool_decide (p = at_repo "other.toml")
       then Some [("tool", ODict [("black", ODict [])])]
       else None;
     json_load := fun p =>
       if bool_decide (p = at_repo "pycln.json")
       then Some (ODict [("pycln", ODict section)])
       else if bool_decide (p = at_repo "list.json")
       then Some (OList [])
       else if bool_decide (p = at_repo "methods.json")
       then Some (ODict [("pycln", ODict [("get_relpath", OStr "x")])])
       else if bool_decide (p = at_repo "again.json")
       then Some (ODict [("pycln", ODict [("config", OStr "pycln.json")])])
       else None;
     yaml_load := fun p =>
       if bool_decide (p = at_repo "pycln.yaml")
          || bool_decide (p = at_repo "pycln.yml")
       then Some (ODict [("pycln", ODict section)])
       else if bool_decide (p = at_repo "quoted.yaml")
       then Some (ODict [("pycln", ODict cfg_section)])
       else if bool_decide (p = at_repo "empty.yaml")
       then Some ONone
       else None |}.

End Sample.

(** Two more files for the sample repository: a JSON file that is cut
    short, and one whose section names a validation method. *)

Module Faulty.

Definition files : list Path :=
  [ Sample.at_repo "broken.json"; Sample.at_repo "shadow.json" ].

Definition w : world :=
  {| cwd := cwd Sample.w;
     is_file := fun p => bool_decide (p ∈ files) || is_file Sample.w p;
     is_dir := is_dir Sample.w;
     cfg_read := cfg_read Sample.w;
     toml_load := toml_load Sample.w;
     json_load := fun p =>
       if bool_decide (p = Sample.at_repo "broken.json") then None
       else if bool_decide (p = Sample.at_repo "shadow.json")
       then Some (ODict [("pycln", ODict [("check", OBool true);
                                          ("_check_path", OStr "off")])])
       else json_load Sample.w p;
     yaml_load := yaml_load Sample.w |}.

End Faulty.

(** ** Paths *)

Section Paths.

Lemma normpath_go_app b st l1 l2 :
  normpath_go b st (l1 ++ l2)
  = normpath_go b (List.rev (normpath_go b st l1)) l2.
Proof.
  revert st. induction l1 as [|c l1 IH]; intros st; simpl.
  - by rewrite List.rev_involutive.
  - destruct (is_curdir c); [apply IH|].
    match goal with |- context [if ?t then _ else _] => destruct t end;
      apply IH.
Qed.

Lemma normpath_go_filter b st l :
  normpath_go b st (List.filter (fun c => negb (is_curdir c)) l)
  = normpath_go b st l.
Proof.
  revert st. induction l as [|c l IH]; intros st; simpl; [done|].
  destruct (is_curdir c) eqn:Hc; simpl; [apply IH|].
  rewrite Hc.
  match goal with |- context [if ?t then _ else _] => destruct t end;
    apply IH.
Qed.

Lemma normpath_go_plain st l :
  Forall plain st -> Forall plain (normpath_go true st l).
Proof.
  revert st. induction l as [|c l IH]; intros st Hst; simpl.
  - by apply Forall_rev.
  - destruct (is_curdir c) eqn:Hc; [by apply IH|].
    destruct (is_pardir c) eqn:Hp; simpl.
    + destruct st as [|top st]; simpl; [by apply IH|].
      apply Forall_cons in Hst as [[_ Htop] Hst]. rewrite Htop.
      by apply IH.
    + apply IH. by constructor.
Qed.

Lemma normpath_go_pardirs n st l :
  Forall plain st ->
  normpath_go true st (List.repeat ".." n ++ l)
  = normpath_go true (drop n st) l.
Proof.
  revert st. induction n as [|n IH]; intros st Hst; [done|].
  cbn [List.repeat app normpath_go].
  change (is_curdir "..") with false. change (is_pardir "..") with true.
  cbn [negb orb andb].
  destruct st as [|top st].
  - simpl. rewrite (IH [] Hst). by rewrite drop_nil.
  - apply Forall_cons in Hst as [[_ Htop] Hst]. rewrite Htop.
    cbn [List.tl]. by rewrite IH.
Qed.

Lemma normpath_go_push st l :
  Forall plain l -> normpath_go true st l = List.rev st ++ l.
Proof.
  revert st. induction l as [|c l IH]; intros st Hl; simpl.
  - by rewrite app_nil_r.
  - apply Forall_cons in Hl as [[Hc Hp] Hl]. rewrite Hc, Hp; simpl.
    rewrite IH by done. simpl. by rewrite <- app_assoc.
Qed.

Lemma commonprefix_take l1 l2 :
  let i := length (commonprefix l1 l2) in
  take i l1 = take i l2 /\ i <= length l1.
Proof.
  revert l2. induction l1 as [|a l1 IH]; intros [|b l2]; simpl;
    try (split; [done|lia]).
  destruct (String.eqb a b) eqn:Hab; simpl; [|split; [done|lia]].
  apply String.eqb_eq in Hab as ->. destruct (IH l2) as [Ht Hl].
  split; [by rewrite Ht|lia].
Qed.

Lemma abspath_plain cwd p : Forall plain (abspath cwd p).
Proof. apply normpath_go_plain. constructor. Qed.

(** Re-anchoring under `start` leaves the absolute location as it was. *)
Lemma abspath_join cwd start rel :
  abspath cwd (join start rel)
  = normpath_go true (List.rev (abspath cwd start)) rel.
Proof.
  unfold abspath, normpath, join, Path_new. cbn [absolute parts].
  destruct (absolute start).
  - by rewrite normpath_go_filter, normpath_go_app.
  - rewrite normpath_go_app, normpath_go_filter, <- normpath_go_app.
    by rewrite app_assoc, normpath_go_app.
Qed.

(** Re-anchoring under `start` leaves the absolute location as it was. *)
Lemma abspath_join_relpath cwd path start :
  abspath cwd (join start (relpath cwd path start)) = abspath cwd path.
Proof.
  rewrite abspath_join. unfold relpath.
  set (A := abspath cwd start). set (X := abspath cwd path).
  destruct (commonprefix_take A X) as [Htake Hle].
  set (i := length (commonprefix A X)) in *.
  assert (Hrel : normpath_go true (List.rev A)
                   (List.repeat ".." (length A - i) ++ drop i X) = X).
  { rewrite normpath_go_pardirs by apply Forall_rev, abspath_plain.
    rewrite skipn_rev.
    replace (length A - (length A - i)) with i by lia.
    rewrite normpath_go_push by apply Forall_drop, abspath_plain.
    by rewrite List.rev_involutive, Htake, take_drop. }
  destruct (List.repeat ".." (length A - i) ++ drop i X) eqn:Hlist;
    [|done].
  rewrite <- Hrel. simpl. done.
Qed.

Lemma relpath_abspath cwd p1 p2 start :
  abspath cwd p1 = abspath cwd p2 -> relpath cwd p1 start = relpath cwd p2 start.
Proof. unfold relpath. by intros ->. Qed.

Lemma Path_new_idemp p : Path_new (Path_new p) = Path_new p.
Proof.
  unfold Path_new; cbn [absolute parts]. f_equal.
  apply List.forallb_filter_id, List.forallb_filter.
Qed.

Lemma join_is_Path a b : Path_new (join a b) = join a b.
Proof. apply Path_new_idemp. Qed.

(** C9: `get_relpath` reads the file system and changes nothing.  A
    candidate that is an existing file comes back as it is; any other comes
    back as `path` joined with its location relative to `path`, which is
    the same absolute location; and a second application changes nothing. *)
Theorem get_relpath_idempotent (w : world) (self_path src : Path) :
  get_relpath w self_path src
    = (if is_file w (Path_new src) then Path_new src
       else join self_path (relpath (cwd w) (Path_new src) self_path))
  /\ abspath (cwd w) (get_relpath w self_path src)
     = abspath (cwd w) (Path_new src)
  /\ get_relpath w self_path (get_relpath w self_path src)
     = get_relpath w self_path src.
Proof.
  unfold get_relpath.
  destruct (is_file w (Path_new src)) eqn:Hsrc; cbn [negb].
  - split; [done|]. split; [done|]. by rewrite Path_new_idemp, Hsrc.
  - split; [done|]. split; [apply abspath_join_relpath|].
    rewrite join_is_Path.
    destruct (is_file w (join _ _)); cbn [negb]; [done|].
    f_equal. apply relpath_abspath, abspath_join_relpath.
Qed.

End Paths.

(** ** The effect monad *)

Lemma run_eta {A : Type} (r : run A) :
  Run (outcome_of r) (object r) (emitted r) = r.
Proof. by destruct r. Qed.

Lemma settings_lookup {A : Type} (r1 r2 : run A) (k : string) :
  settings r1 = settings r2 -> object r1 !! k = object r2 !! k.
Proof. unfold settings. intros Heq. by injection Heq as _ ->. Qed.

Lemma bind_ret_l {A B : Type} (a : A) (k : A -> M B) self :
  bind (ret a) k self = k a self.
Proof. unfold bind, ret; simpl. apply run_eta. Qed.

Lemma bind_after {A B : Type} (m m' : M A) (k : A -> M B) out self :
  m self = after_events out (m' self) ->
  bind m k self = after_events out (bind m' k self).
Proof.
  intros Hm. unfold bind. rewrite Hm. unfold after_events; simpl.
  destruct (m' self) as [[a|c|e] self' out']; simpl; try done.
  by rewrite app_assoc.
Qed.

Lemma bind_load {A B : Type} by_ (parse : Path -> option A) p doc
  (k : A -> M B) self :
  parse p = Some doc ->
  bind (load by_ parse p) k self = after_events [Load by_ p] (k doc self).
Proof. intros Hp. unfold bind, load. by rewrite Hp. Qed.

Lemma bind_cong_l {A B : Type} (m m' : M A) (k : A -> M B) self :
  m self = m' self -> bind m k self = bind m' k self.
Proof. intros Hm. unfold bind. by rewrite Hm. Qed.

(** A sequence returns only if both parts do. *)
Lemma bind_Ok_inv {A B : Type} (m : M A) (k : A -> M B) self b :
  outcome_of (bind m k self) = Ok b ->
  exists a,
    outcome_of (m self) = Ok a
    /\ outcome_of (k a (object (m self))) = Ok b
    /\ object (bind m k self) = object (k a (object (m self))).
Proof.
  unfold bind. destruct (m self) as [[a|c|e] self' out]; simpl; try done.
  intros Hk. by exists a.
Qed.

(** ** The Field Merger *)

Section Merger.

Variable rt : runtime.

Lemma _config_loader_dict (d : list (string * pyobj)) self :
  _config_loader rt (ODict d) self = for_items (_config_loader_item rt) d self.
Proof.
  unfold _config_loader. destruct d as [|kv d]; simpl; [done|].
  apply bind_ret_l.
Qed.

(** An item that the attribute check rejects leaves no trace at all. *)
Lemma for_items_skip (keep : string * pyobj -> bool) d self :
  (forall k v, keep (k, v) = false ->
               _config_loader_item rt k v = ret tt) ->
  for_items (_config_loader_item rt) (List.filter keep d) self
  = for_items (_config_loader_item rt) d self.
Proof.
  intros Hskip. revert self. induction d as [|[k v] d IH]; intros self; [done|].
  simpl. destruct (keep (k, v)) eqn:Hk; simpl.
  - unfold bind. destruct (_config_loader_item rt k v self) as [[[]|c|e] s o];
      simpl; try done. by rewrite IH.
  - rewrite (Hskip _ _ Hk), bind_ret_l. apply IH.
Qed.


Lemma setattr_plain name v self :
  name <> "__class__" -> name <> "__weakref__" -> name <> "__dict__" ->
  setattr name v self = Run (Ok tt) (<[name := v]> self) [].
Proof.
  intros H1 H2 H3. unfold setattr.
  by rewrite !(proj2 (String.eqb_neq _ _)).
Qed.

(** X13: a key that, once `all` is renamed, is no attribute of the class
    `Config` is dropped without an error, a diagnostic or a new attribute:
    merging the mapping and merging it without those keys give the same
    outcome, the same object and the same output. *)
Theorem unknown_keys_ignored (d : list (string * pyobj))
  (self : gmap string value) :
  _config_loader rt (ODict d) self
  = _config_loader rt (ODict (List.filter (names_class_attr rt) d)) self.
Proof.
  rewrite !_config_loader_dict. symmetry. apply for_items_skip.
  intros k v Hk. unfold names_class_attr in Hk; simpl in Hk.
  unfold _config_loader_item. by rewrite Hk.
Qed.

(** C2, where the code departs from it: `get_relpath` is a method of the
    class and no field of the schema, but `hasattr(Config, k)` accepts it
    as it accepts a field, so the merge binds it on the object as a new
    attribute, whatever the run time and the value; with the keys that
    name no field removed, the merge leaves the object as it was. *)
Theorem method_key_is_set (v : pyobj) (self : gmap string value) :
  names_field rt ("get_relpath", v) = false
  /\ hasattr_Config rt "get_relpath" = true
  /\ _config_loader rt (ODict [("get_relpath", v)]) self
     = Run (Ok tt) (<["get_relpath" := VObj v]> self) []
  /\ _config_loader rt
       (ODict (List.filter (names_field rt) [("get_relpath", v)])) self
     = Run (Ok tt) self [].
Proof.
  assert (Hfield : names_field rt ("get_relpath", v) = false) by reflexivity.
  split; [done|]. split; [reflexivity|]. split.
  - rewrite _config_loader_dict. cbn [for_items]. unfold bind.
    unfold _config_loader_item.
    change (String.eqb "get_relpath" "all") with false. cbv zeta iota.
    change (hasattr_Config rt "get_relpath") with true. cbv iota.
    by rewrite setattr_plain.
  - cbn [List.filter]. by rewrite Hfield.
Qed.

(** C10: `path` has no default, so the class has no attribute `path` (the
    run time defines none either): an item `path` is skipped, whatever its
    value, and the merge does what it does without it.  Every other field
    of the schema is a class attribute. *)
Theorem path_key_never_overwrites (d : list (string * pyobj)) (v : pyobj)
  (self : gmap string value) (Hrt : builtin_attr rt "path" = false) :
  hasattr_Config rt "path" = false
  /\ _config_loader_item rt "path" v self = Run (Ok tt) self []
  /\ _config_loader rt (ODict d) self
     = _config_loader rt
         (ODict (List.filter (fun kv => negb (String.eqb (fst kv) "path")) d))
         self
  /\ Forall (fun f => f = "path" \/ hasattr_Config rt f = true) (fields rt).
Proof.
  assert (Hno : hasattr_Config rt "path" = false).
  { unfold hasattr_Config. by rewrite Hrt. }
  assert (Hitem : forall v', _config_loader_item rt "path" v' = ret tt).
  { intros v'. unfold _config_loader_item.
    change (String.eqb "path" "all") with false. cbv zeta iota.
    by rewrite Hno. }
  split; [done|]. split; [by rewrite Hitem|]. split.
  - rewrite !_config_loader_dict. symmetry. apply for_items_skip.
    intros k v' Hk. simpl in Hk. apply negb_false_iff, String.eqb_eq in Hk.
    subst k. apply Hitem.
  - unfold fields. constructor; [by left|].
    unfold class_defaults; simpl.
    repeat (constructor; [by right|]). constructor.
Qed.

End Merger.

(** ** The Config-File Loader *)

Section Loader.

Variable rt : runtime.
Variable w : world.

Lemma setattr_bind {B : Type} name v (k : unit -> M B) self :
  name <> "__class__" -> name <> "__weakref__" -> name <> "__dict__" ->
  bind (setattr name v) k self = k tt (<[name := v]> self).
Proof.
  intros H1 H2 H3. unfold bind. rewrite setattr_plain by done.
  cbn [outcome_of object emitted app]. apply run_eta.
Qed.

Lemma getattr_bind {B : Type} name v (k : value -> M B) self :
  self !! name = Some v ->
  bind (getattr rt name) k self = k v self.
Proof.
  intros Hv. unfold bind, getattr. rewrite Hv.
  cbn [outcome_of object emitted app]. apply run_eta.
Qed.

Lemma Config_new_eq depth a :
  Config_new rt w depth a = __post_init__ rt w depth (init_object a).
Proof.
  unfold Config_new, Config_init, init_object.
  by rewrite !setattr_bind.
Qed.

Lemma init_object_config a : init_object a !! "config" = Some (arg_config a).
Proof. unfold init_object. by simplify_map_eq. Qed.

Lemma init_object_clear a1 a2 :
  arg_path a1 = arg_path a2 ->
  arg_include a1 = arg_include a2 -> arg_exclude a1 = arg_exclude a2 ->
  arg_all_ a1 = arg_all_ a2 -> arg_check a1 = arg_check a2 ->
  arg_diff a1 = arg_diff a2 -> arg_verbose a1 = arg_verbose a2 ->
  arg_quiet a1 = arg_quiet a2 -> arg_silence a1 = arg_silence a2 ->
  arg_expand_stars a1 = arg_expand_stars a2 ->
  arg_no_gitignore a1 = arg_no_gitignore a2 ->
  <["config" := None_]> (init_object a1)
  = <["config" := None_]> (init_object a2).
Proof.
  intros. unfold init_object.
  rewrite !(insert_insert_ne _ "config" _ None_) by done.
  rewrite !insert_insert_eq.
  repeat match goal with H : _ a1 = _ a2 |- _ => rewrite H; clear H end.
  done.
Qed.

(** With a `Path` in `config`, `__post_init__` clears the field and hands
    the path to the loader. *)
Lemma post_init_config depth self v :
  self !! "config" = Some v -> is_not_None v = true ->
  __post_init__ rt w (S depth) self
  = ParseConfigFile_init rt w (__post_init__ rt w depth) v
      (<["config" := None_]> self).
Proof.
  intros Hc Hv. cbn [__post_init__].
  rewrite (getattr_bind _ _ _ _ Hc), Hv. by rewrite setattr_bind.
Qed.

(** Without a config file, `__post_init__` is the validation phase. *)
Lemma post_init_validate depth self v :
  self !! "config" = Some v -> is_not_None v = false ->
  __post_init__ rt w (S depth) self
  = bind (call_method "_check_path" (_check_path rt w))
         (fun _ => call_method "_check_regex" (_check_regex rt)) self.
Proof.
  intros Hc Hv. cbn [__post_init__].
  by rewrite (getattr_bind _ _ _ _ Hc), Hv.
Qed.

(** C7: when the config file is not an existing file, the loader writes
    one diagnostic, which carries the path, and leaves with status 1; no
    parser reads anything, nothing is said about formats, and the object
    is as the loader received it.  So ends the construction of a `Config`
    that names such a file. *)
Theorem missing_config_file (post : M unit) (p : Path)
  (self : gmap string value) (depth : nat) (a : Config_args)
  (Hmissing : is_file w p = false) (Hconfig : arg_config a = VPath p) :
  ParseConfigFile_init rt w post (VPath p) self
    = Run (Exit 1) self [Echo (ConfigFileMissing p)]
  /\ outcome_of (Config_new rt w (S depth) a) = Exit 1
  /\ emitted (Config_new rt w (S depth) a) = [Echo (ConfigFileMissing p)].
Proof.
  assert (Hinit : forall post' self',
             ParseConfigFile_init rt w post' (VPath p) self'
             = Run (Exit 1) self' [Echo (ConfigFileMissing p)]).
  { intros post' self'. unfold ParseConfigFile_init, parse.
    cbn [_path _section]. by rewrite Hmissing. }
  split; [apply Hinit|].
  rewrite Config_new_eq.
  rewrite (post_init_config _ _ (VPath p))
    by (by rewrite ?init_object_config, ?Hconfig).
  by rewrite Hinit.
Qed.

(** C8: for an existing file whose suffix is not in the table, the loader
    reports the file, then the supported suffixes, and leaves with status
    1; no parser reads anything and the object is as the loader received
    it. *)
Theorem unsupported_config_file (post : M unit) (p : Path)
  (self : gmap string value) (depth : nat) (a : Config_args)
  (Hfile : is_file w p = true)
  (Hsuffix : dict_lookup (suffix p) CONFIG_SECTIONS = None)
  (Hconfig : arg_config a = VPath p) :
  ParseConfigFile_init rt w post (VPath p) self
    = Run (Exit 1) self
        [Echo (ConfigFileUnsupported p);
         Echo (SupportedTypes [".cfg"; ".toml"; ".json"; ".yaml"; ".yml"])]
  /\ outcome_of (Config_new rt w (S depth) a) = Exit 1
  /\ loads (emitted (Config_new rt w (S depth) a)) = 0.
Proof.
  pose proof Hsuffix as Hsec.
  assert (Hinit : forall post' self',
             ParseConfigFile_init rt w post' (VPath p) self'
             = Run (Exit 1) self'
                 [Echo (ConfigFileUnsupported p);
                  Echo (SupportedTypes
                          [".cfg"; ".toml"; ".json"; ".yaml"; ".yml"])]).
  { intros post' self'. unfold ParseConfigFile_init, parse.
    cbn [_path _section]. by rewrite Hfile, Hsec. }
  split; [apply Hinit|].
  rewrite Config_new_eq.
  rewrite (post_init_config _ _ (VPath p))
    by (by rewrite ?init_object_config, ?Hconfig).
  by rewrite Hinit.
Qed.

Lemma init_supported post p sec self :
  is_file w p = true ->
  dict_lookup (suffix p) CONFIG_SECTIONS = Some sec ->
  ParseConfigFile_init rt w post (VPath p) self
  = bind (parse_method rt w ("_parse_" ++ strip_dot (suffix p))
            {| _path := p; _section := Some sec |})
         (fun _ => call_method "__post_init__" post) self.
Proof.
  intros Hfile Hsec. unfold ParseConfigFile_init, parse.
  cbn [_path _section]. by rewrite Hfile, Hsec.
Qed.

Lemma parse_section post p content self :
  is_file w p = true -> section_content w p = Some content ->
  exists by_,
    ParseConfigFile_init rt w post (VPath p) self
    = after_events [Load by_ p]
        (bind (_config_loader rt content)
              (fun _ => call_method "__post_init__" post) self).
Proof.
  intros Hfile Hsec. unfold section_content in Hsec.
  destruct (String.eqb (suffix p) ".cfg") eqn:Ecfg.
  { apply String.eqb_eq in Ecfg.
    rewrite (init_supported _ _ "pycln") by (by rewrite ?Ecfg).
    rewrite Ecfg.
    destruct (cfg_read w p) as [sections|] eqn:Hread; [|done].
    exists ConfigParser. apply bind_after.
    change (parse_method rt w _ ?s) with (_parse_cfg rt w s).
    unfold _parse_cfg. cbn [_path _section].
    rewrite (bind_load _ _ _ _ _ _ Hread). f_equal.
    cbn [py_get]. rewrite Hsec. apply bind_ret_l. }
  destruct (String.eqb (suffix p) ".toml") eqn:Etoml.
  { apply String.eqb_eq in Etoml.
    rewrite (init_supported _ _ "tool.pycln") by (by rewrite ?Etoml).
    rewrite Etoml.
    destruct (toml_load w p) as [doc|] eqn:Hread; [|done].
    destruct (dict_lookup "tool" doc) as [[| | | | | |table]|] eqn:Htool;
      try done.
    exists Toml. apply bind_after.
    change (parse_method rt w _ ?s) with (_parse_toml rt w s).
    unfold _parse_toml. cbn [_path _section].
    rewrite (bind_load _ _ _ _ _ _ Hread). f_equal.
    change (split_dot "tool.pycln") with ["tool"; "pycln"].
    cbn [py_get]. rewrite Htool. rewrite bind_ret_l. cbn [from_option id py_get].
    rewrite Hsec. apply bind_ret_l. }
  destruct (String.eqb (suffix p) ".json") eqn:Ejson.
  { apply String.eqb_eq in Ejson.
    rewrite (init_supported _ _ "pycln") by (by rewrite ?Ejson).
    rewrite Ejson.
    destruct (json_load w p) as [[| | | | | |doc]|] eqn:Hread; try done.
    exists Json. apply bind_after.
    change (parse_method rt w _ ?s) with (_parse_json rt w s).
    unfold _parse_json. cbn [_path _section].
    rewrite (bind_load _ _ _ _ _ _ Hread). f_equal.
    cbn [py_get]. rewrite Hsec. apply bind_ret_l. }
  destruct (String.eqb (suffix p) ".yaml" || String.eqb (suffix p) ".yml")
    eqn:Eyaml; [|done].
  destruct (yaml_load w p) as [[| | | | | |doc]|] eqn:Hread; try done.
  exists Yaml.
  apply orb_true_iff in Eyaml as [E|E]; apply String.eqb_eq in E;
    rewrite (init_supported _ _ "pycln") by (by rewrite ?E);
    rewrite E; apply bind_after;
    change (parse_method rt w _ ?s) with (_parse_yaml rt w s);
    unfold _parse_yaml; cbn [_path _section];
    rewrite (bind_load _ _ _ _ _ _ Hread); f_equal;
    cbn [py_get]; rewrite Hsec; apply bind_ret_l.
Qed.


(** C4, as amended: two existing files of supported formats, the same
    or not, whose sections for the tool decode to the same mapping leave
    the same Settings Object, and end the same way: the loader on any
    object, and so the construction of a `Config` from the defaults. *)
Theorem formats_agree (post : M unit) (p1 p2 : Path) (content : pyobj)
  (self : gmap string value) (path : value) (depth : nat)
  (Hfile1 : is_file w p1 = true) (Hfile2 : is_file w p2 = true)
  (Hcontent1 : section_content w p1 = Some content)
  (Hcontent2 : section_content w p2 = Some content) :
  settings (ParseConfigFile_init rt w post (VPath p1) self)
  = settings (ParseConfigFile_init rt w post (VPath p2) self)
  /\ settings (Config_new rt w (S depth) (defaults rt path (VPath p1)))
     = settings (Config_new rt w (S depth) (defaults rt path (VPath p2))).
Proof.
  assert (Hloader : forall post' self',
             settings (ParseConfigFile_init rt w post' (VPath p1) self')
             = settings (ParseConfigFile_init rt w post' (VPath p2) self')).
  { intros post' self'.
    destruct (parse_section post' p1 content self' Hfile1 Hcontent1)
      as [by1 ->].
    destruct (parse_section post' p2 content self' Hfile2 Hcontent2)
      as [by2 ->].
    reflexivity. }
  split; [apply Hloader|].
  rewrite !Config_new_eq.
  rewrite (post_init_config _ _ (VPath p1)), (post_init_config _ _ (VPath p2))
    by (by rewrite ?init_object_config).
  rewrite (init_object_clear (defaults rt path (VPath p1))
             (defaults rt path (VPath p2))) by done.
  apply Hloader.
Qed.

(** C6, where the code departs from it: a YAML file whose document is
    `None` (an empty file) has no section for the tool, and the loader
    raises `AttributeError` on it right after reading the file. *)
Theorem empty_yaml_raises (post : M unit) (p : Path)
  (self : gmap string value)
  (Hfile : is_file w p = true) (Hsuffix : suffix p = ".yaml")
  (Hdoc : yaml_load w p = Some ONone) :
  ParseConfigFile_init rt w post (VPath p) self
  = Run (Raise AttributeError) self [Load Yaml p].
Proof.
  rewrite (init_supported _ _ "pycln") by (by rewrite ?Hsuffix).
  rewrite Hsuffix.
  change (parse_method rt w _ ?s) with (_parse_yaml rt w s).
  unfold _parse_yaml. cbn [_path _section].
  unfold bind at 1. by rewrite (bind_load _ _ _ _ _ _ Hdoc).
Qed.

(** Reads `call_method "__post_init__" post self` as what follows an empty
    merge. *)
Ltac then_post_init post self :=
  rewrite <- (bind_ret_l tt (fun _ => call_method "__post_init__" post) self).

(** What holds of an absent section: when the document is a mapping
    without it, the merge changes nothing, and the construction ends as
    the one without a config file does. *)
Lemma absent_section_keeps_object post p self :
  is_file w p = true -> section_absent w p = true ->
  exists by_,
    ParseConfigFile_init rt w post (VPath p) self
    = after_events [Load by_ p] (call_method "__post_init__" post self).
Proof.
  intros Hfile Habs. unfold section_absent in Habs.
  destruct (String.eqb (suffix p) ".cfg") eqn:Ecfg.
  { apply String.eqb_eq in Ecfg.
    rewrite (init_supported _ _ "pycln") by (by rewrite ?Ecfg).
    rewrite Ecfg.
    destruct (cfg_read w p) as [sections|] eqn:Hread; [|done].
    apply bool_decide_eq_true in Habs.
    exists ConfigParser.
    then_post_init post self.
    apply bind_after.
    change (parse_method rt w _ ?s) with (_parse_cfg rt w s).
    unfold _parse_cfg. cbn [_path _section].
    rewrite (bind_load _ _ _ _ _ _ Hread). f_equal.
    cbn [py_get]. rewrite Habs. by rewrite bind_ret_l. }
  destruct (String.eqb (suffix p) ".toml") eqn:Etoml.
  { apply String.eqb_eq in Etoml.
    rewrite (init_supported _ _ "tool.pycln") by (by rewrite ?Etoml).
    rewrite Etoml.
    destruct (toml_load w p) as [doc|] eqn:Hread; [|done].
    exists Toml.
    then_post_init post self.
    apply bind_after.
    change (parse_method rt w _ ?s) with (_parse_toml rt w s).
    unfold _parse_toml. cbn [_path _section].
    rewrite (bind_load _ _ _ _ _ _ Hread). f_equal.
    change (split_dot "tool.pycln") with ["tool"; "pycln"].
    cbn [py_get].
    destruct (dict_lookup "tool" doc) as [[| | | | | |table]|] eqn:Htool;
      try done.
    apply bool_decide_eq_true in Habs.
    rewrite bind_ret_l. cbn [from_option id py_get]. rewrite Habs.
    by rewrite bind_ret_l. }
  destruct (String.eqb (suffix p) ".json") eqn:Ejson.
  { apply String.eqb_eq in Ejson.
    rewrite (init_supported _ _ "pycln") by (by rewrite ?Ejson).
    rewrite Ejson.
    destruct (json_load w p) as [[| | | | | |doc]|] eqn:Hread; try done.
    apply bool_decide_eq_true in Habs.
    exists Json.
    then_post_init post self.
    apply bind_after.
    change (parse_method rt w _ ?s) with (_parse_json rt w s).
    unfold _parse_json. cbn [_path _section].
    rewrite (bind_load _ _ _ _ _ _ Hread). f_equal.
    cbn [py_get]. rewrite Habs. by rewrite bind_ret_l. }
  destruct (String.eqb (suffix p) ".yaml" || String.eqb (suffix p) ".yml")
    eqn:Eyaml; [|done].
  destruct (yaml_load w p) as [[| | | | | |doc]|] eqn:Hread; try done.
  apply bool_decide_eq_true in Habs.
  exists Yaml.
  apply orb_true_iff in Eyaml as [E|E]; apply String.eqb_eq in E;
    rewrite (init_supported _ _ "pycln") by (by rewrite ?E);
    rewrite E;
    then_post_init post self;
    apply bind_after;
    change (parse_method rt w _ ?s) with (_parse_yaml rt w s);
    unfold _parse_yaml; cbn [_path _section];
    rewrite (bind_load _ _ _ _ _ _ Hread); f_equal;
    cbn [py_get]; rewrite Habs; by rewrite bind_ret_l.
Qed.

(** X7: when the file parses to a mapping that has no section for the
    tool, the construction from the defaults ends as the construction
    without a config file does, with the same object. *)
Lemma absent_section_is_defaults p path depth :
  is_file w p = true -> section_absent w p = true ->
  settings (Config_new rt w (S (S depth)) (defaults rt path (VPath p)))
  = settings (Config_new rt w (S depth) (defaults rt path None_)).
Proof.
  intros Hfile Habs. rewrite !Config_new_eq.
  rewrite (post_init_config _ _ (VPath p)) by (by rewrite ?init_object_config).
  destruct (absent_section_keeps_object (__post_init__ rt w (S depth)) p
              (<["config" := None_]> (init_object (defaults rt path (VPath p))))
              Hfile Habs) as [by_ ->].
  assert (Hobj : <["config" := None_]> (init_object (defaults rt path (VPath p)))
                 = init_object (defaults rt path None_)).
  { unfold init_object; cbn [defaults arg_path arg_config arg_include
      arg_exclude arg_all_ arg_check arg_diff arg_verbose arg_quiet
      arg_silence arg_expand_stars arg_no_gitignore].
    rewrite !(insert_insert_ne _ "config" _ None_) by done.
    by rewrite insert_insert_eq. }
  rewrite Hobj. unfold call_method.
  assert (Hnone : init_object (defaults rt path None_) !! "__post_init__" = None).
  { unfold init_object. by simplify_map_eq. }
  by rewrite Hnone.
Qed.

End Loader.

(** ** Construction of a `Config` *)

Ltac split3 := split; [|split].

Lemma loads_app out1 out2 : loads (out1 ++ out2) = loads out1 + loads out2.
Proof. unfold loads. by rewrite List.filter_app, length_app. Qed.

Lemma bounded_bind {A B : Type} n1 n2 (m : M A) (k : A -> M B) :
  bounded n1 m -> (forall a, bounded n2 (k a)) -> bounded (n1 + n2) (bind m k).
Proof.
  intros Hm Hk self Hself. destruct (Hm self Hself) as (Hd & Hl & Hr).
  unfold bind. destruct (m self) as [[a|c|e] self' out]; simpl in *.
  - destruct (Hk a self' Hd) as (Hd' & Hl' & Hr'). rewrite loads_app.
    split3; [done|lia|done].
  - split3; [done|lia|done].
  - split3; [done|lia|done].
Qed.

Lemma bounded_seq {A B : Type} (m : M A) (k : A -> M B) :
  bounded 0 m -> (forall a, bounded 0 (k a)) -> bounded 0 (bind m k).
Proof. apply (bounded_bind 0 0). Qed.

Lemma bounded_weaken {A : Type} n n' (m : M A) :
  n <= n' -> bounded n m -> bounded n' m.
Proof.
  intros Hn Hm self Hself. destruct (Hm self Hself) as (Hd & Hl & Hr).
  split3; [done|lia|done].
Qed.

Lemma bounded_ret {A : Type} (a : A) : bounded 0 (ret a).
Proof. intros self Hself. by split3. Qed.

Lemma bounded_raise {A : Type} e :
  e <> RecursionError -> bounded 0 (raise (A:=A) e).
Proof. intros He self Hself. split3; try done. by destruct e. Qed.

Lemma bounded_Exit {A : Type} c : bounded 0 (typer_Exit (A:=A) c).
Proof. intros self Hself. by split3. Qed.

Lemma bounded_secho d : bounded 0 (secho d).
Proof. intros self Hself. by split3. Qed.

Lemma bounded_load {A : Type} by_ (parse : Path -> option A) p :
  bounded 1 (load by_ parse p).
Proof.
  intros self Hself. unfold load.
  destruct (parse p); split3; try done; unfold loads; simpl; lia.
Qed.

Lemma bounded_py_get o key d : bounded 0 (py_get o key d).
Proof.
  destruct o; try (by apply bounded_raise).
  destruct key; apply bounded_ret.
Qed.

Lemma bounded_py_items o : bounded 0 (py_items o).
Proof. destruct o; try (by apply bounded_raise). apply bounded_ret. Qed.

Section Construction.

Variable rt : runtime.
Variable w : world.

Lemma bounded_getattr name : bounded 0 (getattr rt name).
Proof.
  intros self Hself. unfold getattr.
  destruct (self !! name); [by split3|].
  destruct (dict_lookup name (class_defaults rt)); by split3.
Qed.

Lemma bounded_call_method {A : Type} n name (m : M A) :
  bounded n m -> bounded n (call_method name m).
Proof.
  intros Hm self Hself. unfold call_method.
  destruct (self !! name); [|by apply Hm].
  split3; [done|unfold loads; simpl; lia|done].
Qed.

(** Binding a decoded object keeps `config` decoded, under any name. *)
Lemma bounded_setattr_obj name o : bounded 0 (setattr name (VObj o)).
Proof.
  intros self Hself. unfold setattr.
  destruct (String.eqb name "__class__"); [by split3|].
  destruct (String.eqb name "__weakref__"); [by split3|].
  destruct (String.eqb name "__dict__").
  - destruct o; try (by split3).
    split3; try done. cbn [object]. intros v Hv.
    apply elem_of_list_to_map_2 in Hv.
    apply list_elem_of_In, List.in_map_iff in Hv as ([k o'] & Heq & _).
    injection Heq as _ <-. by eexists.
  - split3; try done. cbn [object]. intros v Hv.
    destruct (decide (name = "config")) as [->|Hne].
    + rewrite lookup_insert_eq in Hv. injection Hv as <-. by eexists.
    + rewrite lookup_insert_ne in Hv by done. by apply Hself.
Qed.

(** So does binding any value under another plain name. *)
Lemma bounded_setattr_other name v :
  name <> "config" ->
  name <> "__class__" -> name <> "__weakref__" -> name <> "__dict__" ->
  bounded 0 (setattr name v).
Proof.
  intros Hne H1 H2 H3 self Hself. rewrite setattr_plain by done.
  split3; try done. cbn [object]. intros v' Hv.
  rewrite lookup_insert_ne in Hv by done. by apply Hself.
Qed.

Lemma bounded_config_loader_item k v : bounded 0 (_config_loader_item rt k v).
Proof.
  unfold _config_loader_item.
  destruct (hasattr_Config rt _); [apply bounded_setattr_obj|apply bounded_ret].
Qed.

Lemma bounded_for_items items :
  bounded 0 (for_items (_config_loader_item rt) items).
Proof.
  induction items as [|[k v] items IH]; [apply bounded_ret|].
  apply bounded_seq; [apply bounded_config_loader_item|done].
Qed.

Lemma bounded_config_loader o : bounded 0 (_config_loader rt o).
Proof.
  unfold _config_loader. destruct (obj_truth o); [|apply bounded_ret].
  apply bounded_seq; [apply bounded_py_items|]. apply bounded_for_items.
Qed.

Lemma bounded_parse self0 : bounded 1 (parse rt w self0).
Proof.
  unfold parse. destruct (negb _).
  { apply (bounded_weaken 0); [lia|].
    apply bounded_seq; [apply bounded_secho|intros; apply bounded_Exit]. }
  destruct (_section self0) as [sec|].
  2:{ apply (bounded_weaken 0); [lia|].
      apply bounded_seq; [apply bounded_secho|intros].
      apply bounded_seq; [apply bounded_secho|intros; apply bounded_Exit]. }
  assert (Hjson_like : forall by_ parse,
             bounded 1 (parsed <- load by_ parse (_path self0) ;;
                        configs <- py_get parsed (_section self0) (ODict []) ;;
                        _config_loader rt configs)).
  { intros by_ parse. apply (bounded_bind 1 0); [apply bounded_load|].
    intros doc. apply bounded_seq; [apply bounded_py_get|].
    apply bounded_config_loader. }
  unfold parse_method.
  repeat (match goal with |- bounded _ (if ?b then _ else _) => destruct b end).
  - apply (bounded_bind 1 0); [apply bounded_load|].
    intros doc. apply bounded_seq; [apply bounded_py_get|].
    apply bounded_config_loader.
  - unfold _parse_toml. apply (bounded_bind 1 0); [apply bounded_load|].
    intros doc. destruct (_section self0); [|by apply bounded_raise].
    destruct (split_dot _) as [|tool [|pycln [|? ?]]];
      try (by apply bounded_raise).
    apply bounded_seq; [apply bounded_py_get|]. intros table.
    apply bounded_seq; [apply bounded_py_get|].
    apply bounded_config_loader.
  - apply Hjson_like.
  - apply Hjson_like.
  - apply Hjson_like.
  - apply (bounded_weaken 0); [lia|]. by apply bounded_raise.
Qed.

Lemma bounded_safe_compile s t : bounded 0 (safe_compile rt s t).
Proof.
  unfold safe_compile. destruct (re_valid rt s); [apply bounded_ret|].
  apply bounded_seq; [apply bounded_secho|intros; apply bounded_Exit].
Qed.

Lemma bounded_check_path : bounded 0 (_check_path rt w).
Proof.
  unfold _check_path. apply bounded_seq; [apply bounded_getattr|].
  intros path. destruct (negb (truth path)).
  { apply bounded_seq; [apply bounded_secho|intros; apply bounded_Exit]. }
  apply bounded_seq.
  { destruct path; try (by apply bounded_raise). apply bounded_ret. }
  intros d. apply bounded_seq.
  { destruct d; [apply bounded_ret|].
    destruct path; try (by apply bounded_raise). apply bounded_ret. }
  intros ok. destruct (negb ok); [|apply bounded_ret].
  apply bounded_seq; [apply bounded_secho|intros; apply bounded_Exit].
Qed.

Lemma bounded_check_regex : bounded 0 (_check_regex rt).
Proof.
  unfold _check_regex.
  apply bounded_seq; [apply bounded_getattr|intros include].
  apply bounded_seq; [apply bounded_safe_compile|intros include'].
  apply bounded_seq; [by apply bounded_setattr_other|intros _].
  apply bounded_seq; [apply bounded_getattr|intros exclude].
  apply bounded_seq; [apply bounded_safe_compile|intros exclude'].
  by apply bounded_setattr_other.
Qed.

Lemma bounded_checks :
  bounded 0 (call_method "_check_path" (_check_path rt w) ;;;
             call_method "_check_regex" (_check_regex rt)).
Proof.
  apply bounded_seq; [apply bounded_call_method, bounded_check_path|intros _].
  apply bounded_call_method, bounded_check_regex.
Qed.


Lemma getattr_config self :
  config_decoded self ->
  exists o, forall (B : Type) (k : value -> M B),
    bind (getattr rt "config") k self = k (VObj o) self.
Proof.
  intros Hself. destruct (self !! "config") as [v|] eqn:Hv.
  - destruct (Hself v Hv) as [o ->]. exists o. intros B k.
    by apply getattr_bind.
  - exists ONone. intros B k. unfold bind, getattr. rewrite Hv.
    change (dict_lookup "config" (class_defaults rt)) with (Some None_).
    cbn [outcome_of object emitted app]. apply run_eta.
Qed.

(** On an object whose `config` came from a file, `__post_init__` reads
    no file and does not call itself. *)
Lemma bounded_post_init depth : bounded 0 (__post_init__ rt w (S depth)).
Proof.
  intros self Hself. cbn [__post_init__].
  destruct (getattr_config self Hself) as [o ->].
  destruct (is_not_None (VObj o)); [|by apply bounded_checks].
  revert self Hself. apply bounded_seq; [apply bounded_setattr_obj|intros _].
  by apply bounded_raise.
Qed.

Lemma post_init_depth depth self :
  config_decoded self ->
  __post_init__ rt w (S depth) self = __post_init__ rt w 1 self.
Proof.
  intros Hself. cbn [__post_init__].
  destruct (getattr_config self Hself) as [o Ho]. rewrite !Ho.
  by destruct (is_not_None (VObj o)).
Qed.

Lemma bind_cong_r {A B : Type} (m : M A) (k k' : A -> M B) self :
  (forall a, k a (object (m self)) = k' a (object (m self))) ->
  bind m k self = bind m k' self.
Proof.
  intros Hk. unfold bind. destruct (outcome_of (m self)); [|done..].
  by rewrite Hk.
Qed.

Lemma config_decoded_cleared self :
  config_decoded (<["config" := None_]> self).
Proof.
  intros v Hv. rewrite lookup_insert_eq in Hv. injection Hv as <-. by eexists.
Qed.

(** The loader, called with `config` cleared, reads at most one file, and
    what it does is the same at any depth of two or more. *)
Lemma loader_once depth file_path self :
  let r := ParseConfigFile_init rt w (__post_init__ rt w (S depth)) file_path
             (<["config" := None_]> self) in
  r = ParseConfigFile_init rt w (__post_init__ rt w 1) file_path
        (<["config" := None_]> self)
  /\ loads (emitted r) <= 1
  /\ is_RecursionError (outcome_of r) = false.
Proof.
  intros r. subst r. unfold ParseConfigFile_init.
  destruct file_path as [o|p|pat];
    try (split3; [done|unfold loads; simpl; lia|done]).
  set (self0 := {| _path := p; _section := _ |}).
  pose proof (config_decoded_cleared self) as Hself.
  split.
  - apply bind_cong_r. intros _. unfold call_method.
    destruct (_ !! "__post_init__"); [done|].
    apply post_init_depth. by apply bounded_parse.
  - apply (bounded_bind 1 0 (parse rt w self0)); [apply bounded_parse| |done].
    intros _. apply bounded_call_method, bounded_post_init.
Qed.

Lemma getattr_bind_default {B : Type} name v (k : value -> M B) self :
  self !! name = None -> dict_lookup name (class_defaults rt) = Some v ->
  bind (getattr rt name) k self = k v self.
Proof.
  intros Hself Hv. unfold bind, getattr. rewrite Hself, Hv.
  cbn [outcome_of object emitted app]. apply run_eta.
Qed.

Lemma getattr_defaulted name d self :
  dict_lookup name (class_defaults rt) = Some d ->
  exists v, forall (B : Type) (k : value -> M B),
    bind (getattr rt name) k self = k v self.
Proof.
  intros Hd. destruct (self !! name) as [v|] eqn:Hv.
  - exists v. intros B k. by apply getattr_bind.
  - exists d. intros B k. by apply getattr_bind_default.
Qed.

Lemma check_path_ok self :
  outcome_of (call_method "_check_path" (_check_path rt w) self) = Ok tt ->
  object (call_method "_check_path" (_check_path rt w) self) = self
  /\ exists p, self !! "path" = Some (VPath p)
               /\ is_dir w p || is_file w p = true.
Proof.
  unfold call_method. destruct (self !! "_check_path"); [done|].
  unfold _check_path. destruct (self !! "path") as [path|] eqn:Hpath.
  2:{ unfold bind, getattr. rewrite Hpath.
      by change (dict_lookup "path" (class_defaults rt)) with (@None value). }
  rewrite (getattr_bind _ _ _ _ _ Hpath).
  destruct path as [o|p|pat].
  - by destruct (negb (truth (VObj o))).
  - cbn [truth negb path_is_dir path_is_file]. rewrite bind_ret_l.
    destruct (is_dir w p) eqn:Hdir.
    + rewrite bind_ret_l. cbn [negb]. intros _. split; [done|].
      exists p. by rewrite Hdir.
    + rewrite !bind_ret_l. destruct (is_file w p) eqn:Hf; [|done].
      cbn [negb]. intros _. split; [done|]. exists p. by rewrite Hdir, Hf.
  - done.
Qed.

Lemma check_regex_ok self :
  outcome_of (call_method "_check_regex" (_check_regex rt) self) = Ok tt ->
  exists include exclude,
    re_valid rt include = true /\ re_valid rt exclude = true
    /\ object (call_method "_check_regex" (_check_regex rt) self)
       = <["exclude" := VPattern exclude]>
           (<["include" := VPattern include]> self).
Proof.
  unfold call_method. destruct (self !! "_check_regex"); [done|].
  unfold _check_regex, safe_compile.
  destruct (getattr_defaulted "include" (INCLUDE_REGEX rt) self eq_refl)
    as [vi Hvi].
  rewrite !Hvi.
  destruct (re_valid rt (py_str rt vi)) eqn:Hi; [|done].
  rewrite !bind_ret_l, !setattr_bind by done.
  destruct (getattr_defaulted "exclude" (EXCLUDE_REGEX rt)
              (<["include" := VPattern (py_str rt vi)]> self) eq_refl)
    as [ve Hve].
  rewrite !Hve.
  destruct (re_valid rt (py_str rt ve)) eqn:He; [|done].
  rewrite !bind_ret_l, !setattr_plain by done. intros _.
  by exists (py_str rt vi), (py_str rt ve).
Qed.

Lemma post_init_ok depth self :
  outcome_of (__post_init__ rt w depth self) = Ok tt ->
  validated rt w (object (__post_init__ rt w depth self)).
Proof.
  revert self. induction depth as [|depth IH]; intros self; [done|].
  cbn [__post_init__].
  destruct (getattr_defaulted "config" None_ self eq_refl) as [config ->].
  destruct (is_not_None config).
  - rewrite setattr_bind by done.
    destruct config as [o|p|pat]; try done.
    unfold ParseConfigFile_init. intros Hok.
    apply bind_Ok_inv in Hok as ([] & _ & Hok & ->).
    revert Hok. unfold call_method.
    destruct (_ !! "__post_init__"); [done|]. apply IH.
  - intros Hok. apply bind_Ok_inv in Hok as ([] & Hpath & Hregex & ->).
    apply check_path_ok in Hpath as (Hobj & p & Hp & Hkind).
    rewrite Hobj in *.
    apply check_regex_ok in Hregex as (si & se & Hsi & Hse & ->).
    exists p, si, se. by simplify_map_eq.
Qed.

(** X12: a depth of two is all that a construction ever uses: beyond it
    the run is the same, whatever the arguments and the files, and at two
    the depth is not exhausted. *)
Lemma Config_new_stable depth a :
  Config_new rt w (S (S depth)) a = Config_new rt w 2 a
  /\ is_RecursionError (outcome_of (Config_new rt w 2 a)) = false.
Proof.
  rewrite !Config_new_eq.
  pose proof (init_object_config a) as Hconfig.
  destruct (is_not_None (arg_config a)) eqn:Hnone.
  - rewrite !(post_init_config _ _ _ _ (arg_config a)) by done.
    destruct (loader_once depth (arg_config a) (init_object a))
      as (Heq & _ & _).
    destruct (loader_once 0 (arg_config a) (init_object a)) as (_ & _ & Hrec).
    by rewrite Heq.
  - rewrite !(post_init_validate _ _ _ _ (arg_config a)) by done.
    split; [done|]. apply bounded_checks.
    intros v Hv. rewrite Hconfig in Hv. injection Hv as <-.
    destruct (arg_config a) as [[]| |]; try done. by eexists.
Qed.

(** C1: when `config` names a file, `__post_init__` clears the field and
    only then calls the loader; whatever the file holds, at most one file
    is read, the nested `__post_init__` returns without a further nested
    call, and a depth of two is all that the construction uses. *)
Theorem config_file_loaded_once (a : Config_args) (p : Path) (depth : nat)
  (Hconfig : arg_config a = VPath p) :
  Config_new rt w (S (S depth)) a
    = ParseConfigFile_init rt w (__post_init__ rt w (S depth)) (VPath p)
        (<["config" := None_]> (init_object a))
  /\ Config_new rt w (S (S depth)) a = Config_new rt w 2 a
  /\ loads (emitted (Config_new rt w (S (S depth)) a)) <= 1
  /\ is_RecursionError (outcome_of (Config_new rt w (S (S depth)) a)) = false.
Proof.
  assert (Hnew : forall d,
             Config_new rt w (S d) a
             = ParseConfigFile_init rt w (__post_init__ rt w d) (VPath p)
                 (<["config" := None_]> (init_object a))).
  { intros d. rewrite Config_new_eq.
    apply post_init_config; [|done]. by rewrite init_object_config, Hconfig. }
  destruct (loader_once depth (VPath p) (init_object a)) as (Heq & Hl & Hr).
  rewrite !Hnew. by split; [|split; [|split]].
Qed.

(** C3: a construction that returns leaves `path` bound to a `Path` that
    is an existing directory or an existing file, and `include` and
    `exclude` bound to patterns that `regexu.safe_compile` returned; this
    is so with a config file and without one. *)
Theorem construction_validates (depth : nat) (a : Config_args)
  (Hok : outcome_of (Config_new rt w depth a) = Ok tt) :
  validated rt w (object (Config_new rt w depth a)).
Proof. rewrite Config_new_eq in *. by apply post_init_ok. Qed.

End Construction.

(** ** Further behaviour of the construction *)

Create HintDb preserves.

Lemma preserves_bind {A B : Type} I (m : M A) (k : A -> M B) :
  preserves I m -> (forall a, preserves I (k a)) -> preserves I (bind m k).
Proof.
  intros Hm Hk self Hself. specialize (Hm self Hself). unfold bind.
  destruct (m self) as [[a|c|e] self' out]; simpl in *; try done.
  by apply Hk.
Qed.

Lemma preserves_ret {A : Type} I (a : A) : preserves I (ret a).
Proof. by intros self Hself. Qed.

Lemma preserves_raise {A : Type} I e : preserves I (raise (A:=A) e).
Proof. by intros self Hself. Qed.

Lemma preserves_Exit {A : Type} I c : preserves I (typer_Exit (A:=A) c).
Proof. by intros self Hself. Qed.

Lemma preserves_secho I d : preserves I (secho d).
Proof. by intros self Hself. Qed.

Lemma preserves_load {A : Type} I by_ (parse : Path -> option A) p :
  preserves I (load by_ parse p).
Proof. intros self Hself. unfold load. by destruct (parse p). Qed.

Lemma preserves_py_get I o key d : preserves I (py_get o key d).
Proof. intros self Hself. by destruct o, key. Qed.

Lemma preserves_py_items I o : preserves I (py_items o).
Proof. intros self Hself. by destruct o. Qed.

Lemma preserves_call_method {A : Type} I name (m : M A) :
  preserves I m -> preserves I (call_method name m).
Proof.
  intros Hm self Hself. unfold call_method.
  destruct (self !! name); [done|by apply Hm].
Qed.

#[global] Hint Resolve preserves_bind preserves_ret preserves_raise
  preserves_Exit preserves_secho preserves_load preserves_py_get
  preserves_py_items preserves_call_method : preserves.

Section Invariant.

Variable rt : runtime.
Variable w : world.
Variable I : gmap string value -> Prop.

Hypothesis I_decoded : forall name o, preserves I (setattr name (VObj o)).
Hypothesis I_include : forall v, preserves I (setattr "include" v).
Hypothesis I_exclude : forall v, preserves I (setattr "exclude" v).

Lemma preserves_getattr name : preserves I (getattr rt name).
Proof.
  intros self Hself. unfold getattr. destruct (self !! name); [done|].
  by destruct (dict_lookup name (class_defaults rt)).
Qed.

Lemma preserves_path_is_dir v : preserves I (path_is_dir w v).
Proof. intros self Hself. by destruct v. Qed.

Lemma preserves_path_is_file v : preserves I (path_is_file w v).
Proof. intros self Hself. by destruct v. Qed.

Lemma preserves_safe_compile s t : preserves I (safe_compile rt s t).
Proof. unfold safe_compile. destruct (re_valid rt s); auto with preserves. Qed.

#[local] Hint Resolve preserves_getattr preserves_path_is_dir preserves_path_is_file
  preserves_safe_compile : preserves.

Lemma preserves_config_loader_item k v :
  preserves I (_config_loader_item rt k v).
Proof.
  unfold _config_loader_item.
  destruct (hasattr_Config rt _); auto with preserves.
Qed.

Lemma preserves_for_items items :
  preserves I (for_items (_config_loader_item rt) items).
Proof.
  induction items as [|[k v] items IH]; cbn [for_items];
    auto using preserves_config_loader_item with preserves.
Qed.

Lemma preserves_config_loader o : preserves I (_config_loader rt o).
Proof.
  unfold _config_loader.
  destruct (obj_truth o); auto using preserves_for_items with preserves.
Qed.

#[local] Hint Resolve preserves_config_loader : preserves.

Lemma preserves_parse self0 : preserves I (parse rt w self0).
Proof.
  unfold parse. destruct (negb _); [auto with preserves|].
  destruct (_section self0) as [sec|] eqn:Hsec; [|auto 6 with preserves].
  unfold parse_method, _parse_yml, _parse_cfg, _parse_toml, _parse_json,
    _parse_yaml.
  repeat (match goal with
          | |- preserves _ (if ?b then _ else _) => destruct b
          end); auto 6 with preserves.
  apply preserves_bind; [auto with preserves|]. intros doc. rewrite Hsec.
  destruct (split_dot sec) as [|tool [|pycln [|? ?]]];
    auto 6 with preserves.
Qed.

Lemma preserves_check_path : preserves I (_check_path rt w).
Proof.
  unfold _check_path. apply preserves_bind; [auto with preserves|].
  intros path. destruct (negb (truth path)); [auto with preserves|].
  apply preserves_bind; [auto with preserves|]. intros d.
  apply preserves_bind; [destruct d; auto with preserves|].
  intros ok. destruct (negb ok); auto with preserves.
Qed.

Lemma preserves_check_regex : preserves I (_check_regex rt).
Proof. unfold _check_regex. auto 12 with preserves. Qed.

Lemma preserves_post_init depth : preserves I (__post_init__ rt w depth).
Proof.
  induction depth as [|depth IH]; cbn [__post_init__]; [auto with preserves|].
  apply preserves_bind; [auto with preserves|]. intros config.
  destruct (is_not_None config).
  - apply preserves_bind; [apply I_decoded|intros _].
    unfold ParseConfigFile_init.
    destruct config; auto using preserves_parse with preserves.
  - auto using preserves_check_path, preserves_check_regex with preserves.
Qed.

End Invariant.

Section Behaviour.

Variable rt : runtime.
Variable w : world.

(** *** Invariants of the scan path *)

Lemma path_not_Path_decoded name o :
  preserves path_not_Path (setattr name (VObj o)).
Proof.
  intros self Hself. unfold setattr.
  destruct (String.eqb name "__class__"); [done|].
  destruct (String.eqb name "__weakref__"); [done|].
  destruct (String.eqb name "__dict__").
  - destruct o; try done. cbn [object]. intros v Hv.
    apply elem_of_list_to_map_2 in Hv.
    apply list_elem_of_In, List.in_map_iff in Hv as ([k o'] & Heq & _).
    injection Heq as _ <-. by eexists.
  - cbn [object]. intros v Hv.
    destruct (decide (name = "path")) as [->|Hne].
    + rewrite lookup_insert_eq in Hv. injection Hv as <-. by eexists.
    + rewrite lookup_insert_ne in Hv by done. by apply Hself.
Qed.

Lemma path_not_Path_other name v :
  name <> "path" ->
  name <> "__class__" -> name <> "__weakref__" -> name <> "__dict__" ->
  preserves path_not_Path (setattr name v).
Proof.
  intros Hne H1 H2 H3 self Hself. rewrite setattr_plain by done.
  cbn [object]. intros v' Hv. rewrite lookup_insert_ne in Hv by done.
  by apply Hself.
Qed.

Lemma path_kept_decoded path name o :
  preserves (path_kept path) (setattr name (VObj o)).
Proof.
  intros self [Hself|Hself]; [|right; by apply path_not_Path_decoded].
  unfold setattr.
  destruct (String.eqb name "__class__"); [by left|].
  destruct (String.eqb name "__weakref__"); [by left|].
  destruct (String.eqb name "__dict__").
  - destruct o; try (by left). right.
    apply (path_not_Path_decoded "__dict__" (ODict d) ∅). by intros v Hv.
  - cbn [object]. destruct (decide (name = "path")) as [->|Hne].
    + right. intros v Hv. rewrite lookup_insert_eq in Hv.
      injection Hv as <-. by eexists.
    + left. by rewrite lookup_insert_ne.
Qed.

Lemma path_kept_other path name v :
  name <> "path" ->
  name <> "__class__" -> name <> "__weakref__" -> name <> "__dict__" ->
  preserves (path_kept path) (setattr name v).
Proof.
  intros Hne H1 H2 H3 self [Hself|Hself];
    [|right; by apply path_not_Path_other].
  rewrite setattr_plain by done. left. cbn [object].
  by rewrite lookup_insert_ne.
Qed.

Lemma method_shadowed_decoded m name o :
  preserves (method_shadowed m) (setattr name (VObj o)).
Proof.
  intros self [Hself|Hself]; [|right; by apply path_not_Path_decoded].
  unfold setattr.
  destruct (String.eqb name "__class__"); [by left|].
  destruct (String.eqb name "__weakref__"); [by left|].
  destruct (String.eqb name "__dict__").
  - destruct o; try (by left). right.
    apply (path_not_Path_decoded "__dict__" (ODict d) ∅). by intros v Hv.
  - left. cbn [object]. by apply lookup_insert_is_Some'; right.
Qed.

Lemma method_shadowed_other m name v :
  name <> "path" ->
  name <> "__class__" -> name <> "__weakref__" -> name <> "__dict__" ->
  preserves (method_shadowed m) (setattr name v).
Proof.
  intros Hne H1 H2 H3 self [Hself|Hself];
    [|right; by apply path_not_Path_other].
  rewrite setattr_plain by done. left. cbn [object].
  by apply lookup_insert_is_Some'; right.
Qed.

Lemma call_method_ok {A : Type} name (m : M A) self a :
  outcome_of (call_method name m self) = Ok a ->
  self !! name = None /\ call_method name m self = m self.
Proof. unfold call_method. by destruct (self !! name). Qed.

(** A `__post_init__` that returns has called both validation methods, so
    neither name is bound on the object it leaves. *)
Lemma post_init_ok_methods depth self :
  outcome_of (__post_init__ rt w depth self) = Ok tt ->
  object (__post_init__ rt w depth self) !! "_check_path" = None
  /\ object (__post_init__ rt w depth self) !! "_check_regex" = None.
Proof.
  revert self. induction depth as [|depth IH]; intros self; [done|].
  cbn [__post_init__].
  destruct (getattr_defaulted rt "config" None_ self eq_refl) as [config ->].
  destruct (is_not_None config).
  - rewrite setattr_bind by done.
    destruct config as [o|p|pat]; try done.
    unfold ParseConfigFile_init. intros Hok.
    apply bind_Ok_inv in Hok as ([] & _ & Hok & ->).
    apply call_method_ok in Hok as Hcall. destruct Hcall as [_ Hcall].
    rewrite Hcall in *. by apply IH.
  - intros Hok. apply bind_Ok_inv in Hok as ([] & Hpath & Hregex & ->).
    apply call_method_ok in Hpath as Hp. destruct Hp as [Hp _].
    apply check_path_ok in Hpath as (Hobj & _).
    rewrite Hobj in *.
    apply call_method_ok in Hregex as Hr. destruct Hr as [Hr _].
    apply check_regex_ok in Hregex as (si & se & _ & _ & ->).
    by rewrite !lookup_insert_ne.
Qed.

Lemma init_object_path a : init_object a !! "path" = Some (arg_path a).
Proof. unfold init_object. by simplify_map_eq. Qed.

(** X4: a construction that returns has kept the `path` it was given. *)
Theorem scan_path_is_constructor_path (depth : nat) (a : Config_args)
  (Hok : outcome_of (Config_new rt w depth a) = Ok tt) :
  object (Config_new rt w depth a) !! "path" = Some (arg_path a).
Proof.
  rewrite Config_new_eq in *.
  assert (Hkept : path_kept (arg_path a)
                    (object (__post_init__ rt w depth (init_object a)))).
  { apply preserves_post_init.
    - apply path_kept_decoded.
    - intros v. by apply path_kept_other.
    - intros v. by apply path_kept_other.
    - left. apply init_object_path. }
  destruct (post_init_ok rt w _ _ Hok) as (p & si & se & Hp & _).
  destruct Hkept as [Hkept|Hnot]; [done|].
  by destruct (Hnot _ Hp).
Qed.


(** *** The order of the merge *)

Lemma bind_assoc {A B C : Type} (m : M A) (k : A -> M B) (k' : B -> M C)
  self :
  bind (bind m k) k' self = bind m (fun a => bind (k a) k') self.
Proof.
  unfold bind. destruct (m self) as [[a|c|e] self1 out1]; simpl; try done.
  destruct (k a self1) as [[b|c|e] self2 out2]; simpl; try done.
  by rewrite app_assoc.
Qed.

Lemma for_items_app body d1 d2 self :
  for_items body (d1 ++ d2) self
  = bind (for_items body d1) (fun _ => for_items body d2) self.
Proof.
  revert self. induction d1 as [|[k v] d1 IH]; intros self; cbn [for_items app].
  - by rewrite bind_ret_l.
  - rewrite bind_assoc. apply bind_cong_r. intros _. apply IH.
Qed.

(** The merge writes nothing and never leaves through `typer.Exit`. *)
Lemma for_items_silent d self :
  emitted (for_items (_config_loader_item rt) d self) = []
  /\ (is_Ok (outcome_of (for_items (_config_loader_item rt) d self))
      || is_Raise (outcome_of (for_items (_config_loader_item rt) d self)))
     = true.
Proof.
  revert self. induction d as [|[k v] d IH]; intros self; [done|].
  cbn [for_items]. unfold bind.
  assert (Hitem : emitted (_config_loader_item rt k v self) = []
                  /\ (is_Ok (outcome_of (_config_loader_item rt k v self))
                      || is_Raise (outcome_of (_config_loader_item rt k v self)))
                     = true).
  { unfold _config_loader_item. destruct (hasattr_Config rt _); [|done].
    unfold setattr.
    repeat (match goal with
            | |- context [if ?b then _ else _] => destruct b
            end; [done|]).
    match goal with |- context [if ?b then _ else _] => destruct b end;
      [|done].
    by destruct v. }
  destruct (_config_loader_item rt k v self) as [[[]|c|e] self' out];
    simpl in *; destruct Hitem as [-> Hitem]; try done.
  apply IH.
Qed.

Lemma config_loader_item_plain k v self :
  names_class_attr rt (k, v) = true ->
  k <> "__class__" -> k <> "__weakref__" -> k <> "__dict__" ->
  _config_loader_item rt k v self
  = Run (Ok tt) (<[(if String.eqb k "all" then "all_" else k) := VObj v]> self)
      [].
Proof.
  intros Hattr H1 H2 H3. unfold _config_loader_item.
  unfold names_class_attr in Hattr; cbn [fst] in Hattr. rewrite Hattr.
  apply setattr_plain; by destruct (String.eqb k "all").
Qed.

Lemma merge_last d k v self :
  hasattr_Config rt (if String.eqb k "all" then "all_" else k) = true ->
  k <> "__class__" -> k <> "__weakref__" -> k <> "__dict__" ->
  outcome_of (_config_loader rt (ODict (d ++ [(k, v)])) self) = Ok tt ->
  object (_config_loader rt (ODict (d ++ [(k, v)])) self)
    !! (if String.eqb k "all" then "all_" else k)
  = Some (VObj v).
Proof.
  intros Hattr H1 H2 H3 Hok. rewrite _config_loader_dict, for_items_app in *.
  apply bind_Ok_inv in Hok as ([] & _ & _ & ->).
  cbn [for_items]. unfold bind.
  rewrite config_loader_item_plain by done.
  cbn [outcome_of object ret]. apply lookup_insert_eq.
Qed.

(** X5: the items are applied in their order, so the last one decides:
    when the merge of a mapping returns, the attribute that its last key
    names holds the last value. *)
Theorem merge_last_wins (d : list (string * pyobj)) (k : string) (v : pyobj)
  (self : gmap string value)
  (Hattr : names_class_attr rt (k, v) = true)
  (Hclass : k <> "__class__") (Hweakref : k <> "__weakref__")
  (Hdict : k <> "__dict__")
  (Hok : outcome_of (_config_loader rt (ODict (d ++ [(k, v)])) self) = Ok tt) :
  object (_config_loader rt (ODict (d ++ [(k, v)])) self)
    !! (if String.eqb k "all" then "all_" else k)
  = Some (VObj v).
Proof. by apply merge_last. Qed.


(** *** Validation without a config file *)

Lemma init_object_methods a :
  init_object a !! "_check_path" = None
  /\ init_object a !! "_check_regex" = None
  /\ init_object a !! "__post_init__" = None.
Proof. unfold init_object. by simplify_map_eq. Qed.

Lemma init_object_patterns a :
  init_object a !! "include" = Some (arg_include a)
  /\ init_object a !! "exclude" = Some (arg_exclude a).
Proof. unfold init_object. by simplify_map_eq. Qed.

Lemma Config_new_validate depth a :
  arg_config a = None_ ->
  Config_new rt w (S depth) a
  = bind (_check_path rt w)
         (fun _ => call_method "_check_regex" (_check_regex rt))
         (init_object a).
Proof.
  intros Hconfig. rewrite Config_new_eq.
  rewrite (post_init_validate _ _ _ _ None_)
    by (by rewrite ?init_object_config, ?Hconfig).
  apply bind_cong_l. unfold call_method.
  by destruct (init_object_methods a) as (-> & _).
Qed.

(** X2: without a config file, a `path` that is neither an existing
    directory nor an existing file ends the construction with status 1 and
    one diagnostic that carries the path; the patterns are not compiled. *)
Theorem path_not_found_exits (depth : nat) (a : Config_args) (p : Path)
  (Hconfig : arg_config a = None_) (Hpath : arg_path a = VPath p)
  (Hdir : is_dir w p = false) (Hfile : is_file w p = false) :
  Config_new rt w (S depth) a
  = Run (Exit 1) (init_object a) [Echo (NotDirOrFile (VPath p))].
Proof.
  rewrite Config_new_validate by done. unfold _check_path.
  rewrite bind_assoc, (getattr_bind _ _ (VPath p))
    by (by rewrite init_object_path, Hpath).
  cbn [truth negb path_is_dir path_is_file].
  rewrite bind_assoc, bind_ret_l, Hdir, bind_assoc, bind_ret_l, Hfile.
  reflexivity.
Qed.

(** X3: without a config file, a `path` that is false in a condition (`None`,
    an empty string) ends the construction with status 1 and the
    diagnostic of a missing path. *)
Theorem falsy_path_exits (depth : nat) (a : Config_args)
  (Hconfig : arg_config a = None_) (Hpath : truth (arg_path a) = false) :
  Config_new rt w (S depth) a
  = Run (Exit 1) (init_object a) [Echo NoPathProvided].
Proof.
  rewrite Config_new_validate by done. unfold _check_path.
  rewrite bind_assoc, (getattr_bind _ _ (arg_path a))
    by apply init_object_path.
  rewrite Hpath. reflexivity.
Qed.

(** X1: without a config file, an existing `path` and patterns that compile
    give a construction that returns and writes nothing; it rebinds
    `include` and `exclude` to the patterns compiled from their `str()` and
    leaves every other attribute as `__init__` bound it. *)
Theorem construction_without_file (depth : nat) (a : Config_args) (p : Path)
  (Hconfig : arg_config a = None_) (Hpath : arg_path a = VPath p)
  (Hkind : is_dir w p || is_file w p = true)
  (Hinclude : re_valid rt (py_str rt (arg_include a)) = true)
  (Hexclude : re_valid rt (py_str rt (arg_exclude a)) = true) :
  Config_new rt w (S depth) a
  = Run (Ok tt)
      (<["exclude" := VPattern (py_str rt (arg_exclude a))]>
         (<["include" := VPattern (py_str rt (arg_include a))]>
            (init_object a)))
      [].
Proof.
  rewrite Config_new_validate by done.
  assert (Hcheck : _check_path rt w (init_object a)
                   = Run (Ok tt) (init_object a) []).
  { unfold _check_path.
    rewrite (getattr_bind _ _ (VPath p)) by (by rewrite init_object_path, Hpath).
    cbn [truth negb path_is_dir path_is_file]. rewrite bind_ret_l.
    destruct (is_dir w p); [by rewrite bind_ret_l|].
    rewrite !bind_ret_l. simpl in Hkind. by rewrite Hkind. }
  unfold bind at 1. rewrite Hcheck. cbn [outcome_of object emitted app].
  unfold call_method. destruct (init_object_methods a) as (_ & -> & _).
  destruct (init_object_patterns a) as [Hi He].
  unfold _check_regex, safe_compile.
  rewrite (getattr_bind _ _ _ _ _ Hi), Hinclude, bind_ret_l.
  rewrite setattr_bind by done.
  rewrite (getattr_bind _ _ (arg_exclude a))
    by (by rewrite lookup_insert_ne).
  rewrite Hexclude, bind_ret_l. by rewrite setattr_plain.
Qed.


(** *** Construction with a config file *)

Lemma Config_new_section depth a p content :
  arg_config a = VPath p -> is_file w p = true ->
  section_content w p = Some content ->
  exists by_,
    Config_new rt w (S depth) a
    = after_events [Load by_ p]
        (bind (_config_loader rt content)
              (fun _ => call_method "__post_init__" (__post_init__ rt w depth))
              (<["config" := None_]> (init_object a))).
Proof.
  intros Hconfig Hfile Hcontent. rewrite Config_new_eq.
  rewrite (post_init_config _ _ _ _ (VPath p))
    by (by rewrite ?init_object_config, ?Hconfig).
  by apply parse_section.
Qed.

(** On an object whose `config` came from a file, a `__post_init__` that
    returns has only rebound `include` and `exclude`. *)
Lemma post_init_decoded_ok depth self :
  config_decoded self ->
  outcome_of (__post_init__ rt w depth self) = Ok tt ->
  exists include exclude,
    object (__post_init__ rt w depth self)
    = <["exclude" := VPattern exclude]>
        (<["include" := VPattern include]> self).
Proof.
  intros Hself. destruct depth as [|depth]; [done|]. cbn [__post_init__].
  destruct (getattr_config rt self Hself) as [o ->].
  destruct o; cbn [is_not_None];
    try (rewrite setattr_bind by done; done).
  intros Hok. apply bind_Ok_inv in Hok as ([] & Hpath & Hregex & ->).
  apply check_path_ok in Hpath as (Hobj & _). rewrite Hobj in *.
  apply check_regex_ok in Hregex as (si & se & _ & _ & ->).
  by exists si, se.
Qed.

Lemma flags_attr name :
  In name flags ->
  hasattr_Config rt name = true
  /\ name <> "include" /\ name <> "exclude" /\ name <> "all"
  /\ name <> "__class__" /\ name <> "__weakref__" /\ name <> "__dict__".
Proof.
  unfold flags. cbn [In]. intros H.
  repeat (destruct H as [<-|H]; [by repeat split|]). done.
Qed.

(** X6: a flag that the section of the config file sets last holds, once
    the construction has returned, the very object that the parser
    produced: the validation phase neither checks nor converts it. *)
Theorem file_flag_kept_as_decoded (depth : nat) (a : Config_args) (p : Path)
  (d : list (string * pyobj)) (k : string) (v : pyobj)
  (Hconfig : arg_config a = VPath p) (Hfile : is_file w p = true)
  (Hcontent : section_content w p = Some (ODict (d ++ [(k, v)])))
  (Hflag : In (if String.eqb k "all" then "all_" else k) flags)
  (Hok : outcome_of (Config_new rt w depth a) = Ok tt) :
  object (Config_new rt w depth a)
    !! (if String.eqb k "all" then "all_" else k)
  = Some (VObj v).
Proof.
  destruct depth as [|depth]; [by rewrite Config_new_eq in Hok|].
  destruct (Config_new_section depth a p _ Hconfig Hfile Hcontent)
    as [by_ Hnew].
  rewrite Hnew in *. unfold after_events in *.
  cbn [outcome_of object] in *.
  apply bind_Ok_inv in Hok as ([] & Hmerge & Hpost & ->).
  apply call_method_ok in Hpost as Hcall. destruct Hcall as [_ Hcall].
  rewrite Hcall in *.
  destruct (flags_attr _ Hflag) as (Hattr & Hi & He & Hall & H1 & H2 & H3).
  assert (Hk : k <> "__class__" /\ k <> "__weakref__" /\ k <> "__dict__").
  { destruct (String.eqb k "all") eqn:E; [|done].
    apply String.eqb_eq in E. by subst k. }
  destruct Hk as (Hk1 & Hk2 & Hk3).
  pose proof (merge_last d k v _ Hattr Hk1 Hk2 Hk3 Hmerge) as Hlast.
  destruct (post_init_decoded_ok depth _
              (proj1 (bounded_config_loader rt _ _
                        (config_decoded_cleared (init_object a)))) Hpost)
    as (si & se & ->).
  by rewrite !lookup_insert_ne.
Qed.


(** X8: a section that ends by setting `config` to anything but `None`
    ends the construction in an exception that nothing catches: the file
    is read, nothing is written to the error stream, and the nested
    `__post_init__` hands the decoded value to the loader, which has no
    `suffix` to read from it. *)
Theorem config_key_raises (depth : nat) (a : Config_args) (p : Path)
  (d : list (string * pyobj)) (o : pyobj)
  (Hconfig : arg_config a = VPath p) (Hfile : is_file w p = true)
  (Hcontent : section_content w p = Some (ODict (d ++ [("config", o)])))
  (Hset : is_not_None (VObj o) = true) :
  is_Raise (outcome_of (Config_new rt w (S (S depth)) a)) = true
  /\ exists by_, emitted (Config_new rt w (S (S depth)) a) = [Load by_ p].
Proof.
  destruct (Config_new_section (S depth) a p _ Hconfig Hfile Hcontent)
    as [by_ ->].
  unfold after_events. cbn [outcome_of emitted].
  set (self := <["config" := None_]> (init_object a)).
  pose proof (merge_last d "config" o self eq_refl) as Hlast.
  rewrite (bind_cong_l _ _ _ _ (_config_loader_dict rt _ _)).
  rewrite _config_loader_dict in Hlast.
  destruct (for_items_silent (d ++ [("config", o)]) self) as [Hout Hres].
  unfold bind.
  destruct (for_items (_config_loader_item rt) (d ++ [("config", o)]) self)
    as [[[]|c|e] self' out]; cbn [outcome_of object emitted] in *;
    subst out; try done; [|by eauto].
  assert (Hc : self' !! "config" = Some (VObj o)) by (by apply Hlast).
  unfold call_method. destruct (self' !! "__post_init__"); [by eauto|].
  rewrite (post_init_config _ _ _ _ (VObj o)) by done.
  by eauto.
Qed.

(** The merge of a mapping that has the key `name`, when it returns,
    leaves `name` bound, unless `__dict__` replaced the dictionary. *)
Lemma merge_binds_method name d self :
  name = "_check_path" \/ name = "_check_regex" ->
  In name (List.map fst d) ->
  outcome_of (for_items (_config_loader_item rt) d self) = Ok tt ->
  method_shadowed name (object (for_items (_config_loader_item rt) d self)).
Proof.
  intros Hname. revert self.
  induction d as [|[k v] d IH]; intros self Hin Hok; [done|].
  cbn [for_items] in *.
  apply bind_Ok_inv in Hok as ([] & Hitem & Hrest & ->).
  destruct (decide (k = name)) as [->|Hne].
  - apply preserves_for_items; [apply method_shadowed_decoded|].
    rewrite config_loader_item_plain by (by destruct Hname as [->| ->]).
    left. cbn [object].
    replace (if String.eqb name "all" then "all_" else name) with name
      by (by destruct Hname as [->| ->]).
    by rewrite lookup_insert_eq.
  - apply IH; [|done]. by destruct Hin.
Qed.

(** X9: a section with a key named as a validation method never yields a
    `Config`: the value shadows the method on the object, so the
    validation that follows the merge cannot call it. *)
Theorem validation_method_key_breaks (depth : nat) (a : Config_args)
  (p : Path) (d : list (string * pyobj)) (name : string)
  (Hname : name = "_check_path" \/ name = "_check_regex")
  (Hconfig : arg_config a = VPath p) (Hfile : is_file w p = true)
  (Hcontent : section_content w p = Some (ODict d))
  (Hkey : In name (List.map fst d)) :
  is_Ok (outcome_of (Config_new rt w depth a)) = false.
Proof.
  destruct depth as [|depth]; [by rewrite Config_new_eq|].
  destruct (Config_new_section depth a p _ Hconfig Hfile Hcontent)
    as [by_ ->].
  unfold after_events. cbn [outcome_of].
  match goal with |- is_Ok ?r = false => destruct r as [[]|c|e] eqn:Hok end;
    [exfalso|done..].
  apply bind_Ok_inv in Hok as ([] & Hmerge & Hpost & _).
  rewrite _config_loader_dict in *.
  pose proof (merge_binds_method name d _ Hname Hkey Hmerge) as Hshadow.
  apply call_method_ok in Hpost as Hcall. destruct Hcall as [_ Hcall].
  rewrite Hcall in Hpost.
  assert (Hfinal : method_shadowed name
                     (object (__post_init__ rt w depth
                        (object (for_items (_config_loader_item rt) d
                                   (<["config" := None_]> (init_object a))))))).
  { apply preserves_post_init; [apply method_shadowed_decoded| | |done].
    - intros v. by apply method_shadowed_other.
    - intros v. by apply method_shadowed_other. }
  destruct (post_init_ok rt w _ _ Hpost) as (p' & si & se & Hp & _).
  destruct (post_init_ok_methods _ _ Hpost) as [Hcp Hcr].
  destruct Hfinal as [[v Hv]|Hnot].
  - destruct Hname as [->| ->]; congruence.
  - by destruct (Hnot _ Hp).
Qed.

(** X10: when the parser of its format rejects the file, the loader raises
    right after the read: nothing is merged, the validation phase does
    not run, and nothing is written to the error stream. *)
Theorem malformed_config_file (post : M unit) (p : Path)
  (self : gmap string value)
  (Hfile : is_file w p = true) (Hrejects : parser_rejects w p = true) :
  exists by_,
    ParseConfigFile_init rt w post (VPath p) self
    = Run (Raise DecodeError) self [Load by_ p].
Proof.
  unfold parser_rejects in Hrejects.
  assert (Hload : forall {A B : Type} by_ (parse : Path -> option A)
                    (k : A -> M B) (k' : B -> M unit),
             parse p = None ->
             bind (bind (load by_ parse p) k) k' self
             = Run (Raise DecodeError) self [Load by_ p]).
  { intros A B by_ parse k k' Hp. unfold bind, load. by rewrite Hp. }
  destruct (String.eqb (suffix p) ".cfg") eqn:Ecfg.
  { apply String.eqb_eq in Ecfg. apply bool_decide_eq_true in Hrejects.
    rewrite (init_supported _ _ _ _ "pycln") by (by rewrite ?Ecfg).
    rewrite Ecfg. exists ConfigParser.
    change (parse_method rt w _ ?s) with (_parse_cfg rt w s).
    by apply Hload. }
  destruct (String.eqb (suffix p) ".toml") eqn:Etoml.
  { apply String.eqb_eq in Etoml. apply bool_decide_eq_true in Hrejects.
    rewrite (init_supported _ _ _ _ "tool.pycln") by (by rewrite ?Etoml).
    rewrite Etoml. exists Toml.
    change (parse_method rt w _ ?s) with (_parse_toml rt w s).
    by apply Hload. }
  destruct (String.eqb (suffix p) ".json") eqn:Ejson.
  { apply String.eqb_eq in Ejson. apply bool_decide_eq_true in Hrejects.
    rewrite (init_supported _ _ _ _ "pycln") by (by rewrite ?Ejson).
    rewrite Ejson. exists Json.
    change (parse_method rt w _ ?s) with (_parse_json rt w s).
    by apply Hload. }
  destruct (String.eqb (suffix p) ".yaml" || String.eqb (suffix p) ".yml")
    eqn:Eyaml; [|done].
  apply bool_decide_eq_true in Hrejects. exists Yaml.
  apply orb_true_iff in Eyaml as [E|E]; apply String.eqb_eq in E;
    rewrite (init_supported _ _ _ _ "pycln") by (by rewrite ?E);
    rewrite E;
    change (parse_method rt w _ ?s) with (_parse_yaml rt w s);
    by apply Hload.
Qed.

End Behaviour.

Section PathsUnder.

Lemma commonprefix_prefix l rest : commonprefix l (l ++ rest) = l.
Proof.
  induction l as [|c l IH]; simpl; [by destruct rest|].
  by rewrite String.eqb_refl, IH.
Qed.

Lemma filter_plain l :
  Forall plain l -> List.filter (fun c => negb (is_curdir c)) l = l.
Proof.
  induction 1 as [|c l [Hc _] _ IH]; simpl; [done|]. by rewrite Hc, IH.
Qed.

(** X11: for a candidate that is not an existing file and lies under `path`
    (or is `path` itself), `get_relpath` returns `path` followed by the
    components of the candidate below it, with no `..`. *)
Theorem get_relpath_under_path (w : world) (self_path src : Path)
  (rest : list string)
  (Hfile : is_file w (Path_new src) = false)
  (Hunder : abspath (cwd w) (Path_new src)
            = abspath (cwd w) self_path ++ rest) :
  get_relpath w self_path src
  = mkPath (absolute self_path) (parts (Path_new self_path) ++ rest).
Proof.
  unfold get_relpath. rewrite Hfile. cbn [negb].
  unfold relpath. rewrite Hunder, commonprefix_prefix.
  rewrite Nat.sub_diag, drop_app_length. cbn [List.repeat app].
  assert (Hrest : Forall plain rest).
  { pose proof (abspath_plain (cwd w) (Path_new src)) as Hplain.
    rewrite Hunder in Hplain. by apply Forall_app in Hplain as [_ ?]. }
  unfold join, Path_new. cbn [absolute parts]. f_equal.
  rewrite List.filter_app. f_equal.
  destruct rest as [|c rest]; [done|]. by apply filter_plain.
Qed.

End PathsUnder.

(** ** Examples on the sample repository *)

Module Examples.
Import Sample.

(** The TOML file with `all = true` and `verbose = true`, merged onto the
    defaults. *)
Example toml_all_verbose :
  let r := Config_new rt w 2
             (defaults rt (VPath repo) (VPath (at_repo "pyproject.toml"))) in
  outcome_of r = Ok tt
  /\ object r !! "all_" = Some (VObj (OBool true))
  /\ object r !! "verbose" = Some (VObj (OBool true))
  /\ object r !! "all" = None
  /\ object r !! "check" = Some False_
  /\ object r !! "config" = Some None_
  /\ emitted r = [Load Toml (at_repo "pyproject.toml")].
Proof. vm_compute. by repeat split. Qed.

(** `get_relpath` with `path="/repo"` on `/repo/sub/file.py`, which is not
    an existing file. *)
Example get_relpath_repo :
  get_relpath w repo (mkPath true ["repo"; "sub"; "file.py"])
  = mkPath true ["repo"; "sub"; "file.py"].
Proof. reflexivity. Qed.

(** A file that sets `config` makes the nested `__post_init__` call the
    loader again, which raises before it reads anything. *)
Example config_key_in_file :
  let r := Config_new rt w 2
             (defaults rt (VPath repo) (VPath (at_repo "again.json"))) in
  outcome_of r = Raise AttributeError
  /\ emitted r = [Load Json (at_repo "again.json")].
Proof. vm_compute. by split. Qed.

Lemma config_file_loaded_once_witness :
  loads (emitted (Config_new rt w 2
                    (defaults rt (VPath repo) (VPath (at_repo "again.json")))))
  <= 1.
Proof.
  destruct (config_file_loaded_once rt w
              (defaults rt (VPath repo) (VPath (at_repo "again.json")))
              (at_repo "again.json") 0 eq_refl) as (_ & _ & Hloads & _).
  exact Hloads.
Defined.

(** The key `get_relpath` on the sample run time: no field of the schema,
    yet bound by the merge. *)
Lemma method_key_is_bound :
  names_field rt ("get_relpath", OStr "x") = false
  /\ object (_config_loader rt (ODict [("get_relpath", OStr "x")]) ∅)
       !! "get_relpath" = Some (VObj (OStr "x"))
  /\ object (_config_loader rt
               (ODict (List.filter (names_field rt)
                         [("get_relpath", OStr "x")])) ∅)
       !! "get_relpath" = None.
Proof. vm_compute. by repeat split. Qed.

(** A JSON file whose section is `{"get_relpath": "x"}`: the construction
    returns, with `get_relpath` bound to the string on the object. *)
Example method_key_in_file :
  let r := Config_new rt w 2
             (defaults rt (VPath repo) (VPath (at_repo "methods.json"))) in
  outcome_of r = Ok tt
  /\ object r !! "get_relpath" = Some (VObj (OStr "x")).
Proof. vm_compute. by split. Qed.

Lemma construction_validates_witness :
  validated rt w
    (object (Config_new rt w 2
               (defaults rt (VPath repo) (VPath (at_repo "pyproject.toml"))))).
Proof.
  apply (construction_validates rt w 2). vm_compute. reflexivity.
Defined.

Lemma formats_agree_witness :
  settings (Config_new rt w 2
              (defaults rt (VPath repo) (VPath (at_repo "setup.cfg"))))
  = settings (Config_new rt w 2
                (defaults rt (VPath repo) (VPath (at_repo "quoted.yaml")))).
Proof.
  apply (formats_agree rt w (ret tt) (at_repo "setup.cfg")
           (at_repo "quoted.yaml") (ODict cfg_section) ∅ (VPath repo) 1);
    reflexivity.
Defined.

(** C4 as stated fails: the options `all = true` and `verbose = true`
    can be written in every format, but `setup.cfg` gives the string
    `'true'` where `pyproject.toml` gives `True`; the merge keeps each as
    decoded, so the two Settings Objects differ. *)
Lemma cfg_true_is_a_string :
  let from_cfg :=
    Config_new rt w 2
      (defaults rt (VPath repo) (VPath (at_repo "setup.cfg"))) in
  let from_toml :=
    Config_new rt w 2
      (defaults rt (VPath repo) (VPath (at_repo "pyproject.toml"))) in
  outcome_of from_cfg = Ok tt
  /\ outcome_of from_toml = Ok tt
  /\ object from_cfg !! "all_" = Some (VObj (OStr "true"))
  /\ object from_toml !! "all_" = Some (VObj (OBool true))
  /\ settings from_cfg <> settings from_toml.
Proof.
  intros from_cfg from_toml.
  assert (Hcfg : object from_cfg !! "all_" = Some (VObj (OStr "true")))
    by (vm_compute; reflexivity).
  assert (Htoml : object from_toml !! "all_" = Some (VObj (OBool true)))
    by (vm_compute; reflexivity).
  split; [vm_compute; reflexivity|]. split; [vm_compute; reflexivity|].
  split; [exact Hcfg|]. split; [exact Htoml|].
  intros Heq. apply (settings_lookup _ _ "all_") in Heq.
  rewrite Hcfg, Htoml in Heq. discriminate Heq.
Qed.


Lemma empty_yaml_raises_witness :
  ParseConfigFile_init rt w (ret tt) (VPath (at_repo "empty.yaml")) ∅
  = Run (Raise AttributeError) ∅ [Load Yaml (at_repo "empty.yaml")].
Proof.
  apply (empty_yaml_raises rt w (ret tt) (at_repo "empty.yaml") ∅);
    reflexivity.
Defined.

Lemma missing_config_file_witness :
  outcome_of (Config_new rt w 1
                (defaults rt (VPath repo) (VPath (at_repo "nope.toml"))))
  = Exit 1.
Proof.
  apply (missing_config_file rt w (ret tt) (at_repo "nope.toml") ∅ 0
           (defaults rt (VPath repo) (VPath (at_repo "nope.toml"))));
    reflexivity.
Defined.

Lemma unsupported_config_file_witness :
  outcome_of (Config_new rt w 1
                (defaults rt (VPath repo) (VPath (at_repo "tox.ini"))))
  = Exit 1.
Proof.
  apply (unsupported_config_file rt w (ret tt) (at_repo "tox.ini") ∅ 0
           (defaults rt (VPath repo) (VPath (at_repo "tox.ini"))));
    reflexivity.
Defined.

Lemma path_key_never_overwrites_witness :
  _config_loader_item rt "path" (OStr "/elsewhere") ∅ = Run (Ok tt) ∅ [].
Proof.
  apply (path_key_never_overwrites rt [] (OStr "/elsewhere") ∅).
  reflexivity.
Defined.

End Examples.

(** ** Further examples *)

Module Cases.
Import Sample.

(** The section `all`, then `all_`: the later value is the one kept. *)
Example all_then_all_ :
  object (_config_loader rt
            (ODict [("all", OBool true); ("all_", OBool false)]) ∅)
    !! "all_" = Some (VObj (OBool false)).
Proof. vm_compute. reflexivity. Qed.

Lemma construction_without_file_witness :
  outcome_of (Config_new rt w 1 (defaults rt (VPath repo) None_)) = Ok tt.
Proof.
  rewrite (construction_without_file rt w 0 (defaults rt (VPath repo) None_)
             repo); reflexivity.
Defined.

Lemma path_not_found_exits_witness :
  emitted (Config_new rt w 1 (defaults rt (VPath (at_repo "gone")) None_))
  = [Echo (NotDirOrFile (VPath (at_repo "gone")))].
Proof.
  rewrite (path_not_found_exits rt w 0
             (defaults rt (VPath (at_repo "gone")) None_) (at_repo "gone"));
    reflexivity.
Defined.

Lemma falsy_path_exits_witness :
  emitted (Config_new rt w 1 (defaults rt (VObj (OStr "")) None_))
  = [Echo NoPathProvided].
Proof.
  rewrite (falsy_path_exits rt w 0 (defaults rt (VObj (OStr "")) None_));
    reflexivity.
Defined.

Lemma scan_path_is_constructor_path_witness :
  object (Config_new rt w 2
            (defaults rt (VPath repo) (VPath (at_repo "pyproject.toml"))))
    !! "path" = Some (VPath repo).
Proof.
  apply (scan_path_is_constructor_path rt w 2
           (defaults rt (VPath repo) (VPath (at_repo "pyproject.toml")))).
  vm_compute. reflexivity.
Defined.

Lemma merge_last_wins_witness :
  object (_config_loader rt
            (ODict ([("all", OBool true)] ++ [("all_", OBool false)])) ∅)
    !! "all_" = Some (VObj (OBool false)).
Proof.
  apply (merge_last_wins rt [("all", OBool true)] "all_" (OBool false) ∅);
    try discriminate; vm_compute; reflexivity.
Defined.

Lemma file_flag_kept_as_decoded_witness :
  object (Config_new rt w 2
            (defaults rt (VPath repo) (VPath (at_repo "setup.cfg"))))
    !! "verbose" = Some (VObj (OStr "true")).
Proof.
  apply (file_flag_kept_as_decoded rt w 2
           (defaults rt (VPath repo) (VPath (at_repo "setup.cfg")))
           (at_repo "setup.cfg") [("all", OStr "true")] "verbose"
           (OStr "true"));
    first [reflexivity | vm_compute; tauto].
Defined.

Lemma absent_section_is_defaults_witness :
  settings (Config_new rt w 2
              (defaults rt (VPath repo) (VPath (at_repo "other.toml"))))
  = settings (Config_new rt w 1 (defaults rt (VPath repo) None_)).
Proof.
  apply (absent_section_is_defaults rt w (at_repo "other.toml") (VPath repo) 0);
    reflexivity.
Defined.

Lemma config_key_raises_witness :
  is_Raise
    (outcome_of (Config_new rt w 2
                   (defaults rt (VPath repo) (VPath (at_repo "again.json")))))
  = true.
Proof.
  apply (config_key_raises rt w 0
           (defaults rt (VPath repo) (VPath (at_repo "again.json")))
           (at_repo "again.json") [] (OStr "pycln.json"));
    reflexivity.
Defined.

Lemma validation_method_key_breaks_witness :
  is_Ok
    (outcome_of (Config_new rt Faulty.w 2
                   (defaults rt (VPath repo) (VPath (at_repo "shadow.json")))))
  = false.
Proof.
  apply (validation_method_key_breaks rt Faulty.w 2
           (defaults rt (VPath repo) (VPath (at_repo "shadow.json")))
           (at_repo "shadow.json")
           [("check", OBool true); ("_check_path", OStr "off")]
           "_check_path");
    first [reflexivity | by left | vm_compute; tauto].
Defined.

Lemma malformed_config_file_witness :
  exists by_,
    ParseConfigFile_init rt Faulty.w (ret tt)
      (VPath (at_repo "broken.json")) ∅
    = Run (Raise DecodeError) ∅ [Load by_ (at_repo "broken.json")].
Proof.
  apply (malformed_config_file rt Faulty.w (ret tt) (at_repo "broken.json") ∅);
    reflexivity.
Defined.

Lemma get_relpath_under_path_witness :
  get_relpath w repo (mkPath true ["repo"; "."; "sub"; "file.py"])
  = mkPath true ["repo"; "sub"; "file.py"].
Proof.
  apply (get_relpath_under_path w repo
           (mkPath true ["repo"; "."; "sub"; "file.py"]) ["sub"; "file.py"]);
    reflexivity.
Defined.

End Cases.
